(** * ShopPilot backend: customer controller, customer and order models

    A shallow embedding of [controllers/customerController.js],
    [models/Customer.js] and [models/Order.js], and the properties of the
    handlers proved on it.

    - JavaScript strings are [string]s (code units in the 8-bit range).
    - JavaScript Numbers are IEEE 754 binary64 values ([spec_float] with
      precision 53 and maximal exponent 1024); counts returned by the store
      and time values are integers and are kept in [Z] or [nat].
    - A [Date] is its time value in milliseconds since the epoch; the local
      time zone is a [JsDate.Zone], the offset of local time from UTC at
      every time value.
    - The collection is the list of its documents in natural order; the
      handlers take the collection and the clock and return the response
      together with the new collection. *)

From Stdlib Require Import ZArith List String Ascii Bool Lia QArith.
From Stdlib Require Import DecimalString SpecFloat Permutation Sorted.
Import ListNotations.

Local Open Scope string_scope.
Local Open Scope Z_scope.

(** ** JavaScript strings *)

Module JsString.

Definition isUpper (c : ascii) : bool :=
  let n := nat_of_ascii c in (65 <=? n)%nat && (n <=? 90)%nat.

Definition isLower (c : ascii) : bool :=
  let n := nat_of_ascii c in (97 <=? n)%nat && (n <=? 122)%nat.

Definition lowerChar (c : ascii) : ascii :=
  if isUpper c then ascii_of_nat (nat_of_ascii c + 32) else c.

Definition upperChar (c : ascii) : ascii :=
  if isLower c then ascii_of_nat (nat_of_ascii c - 32) else c.

Fixpoint mapChars (f : ascii -> ascii) (s : string) : string :=
  match s with
  | EmptyString => EmptyString
  | String c r => String (f c) (mapChars f r)
  end.

(** [String.prototype.toLowerCase] and [toUpperCase]. *)
Definition toLowerCase : string -> string := mapChars lowerChar.
Definition toUpperCase : string -> string := mapChars upperChar.

(** White space removed by [String.prototype.trim]: TAB, LF, VT, FF, CR,
    SP and NBSP. *)
Definition isSpace (c : ascii) : bool :=
  let n := nat_of_ascii c in
  ((9 <=? n)%nat && (n <=? 13)%nat) || (n =? 32)%nat || (n =? 160)%nat.

Fixpoint trimStart (s : string) : string :=
  match s with
  | EmptyString => EmptyString
  | String c r => if isSpace c then trimStart r else s
  end.

Fixpoint trimEnd (s : string) : string :=
  match s with
  | EmptyString => EmptyString
  | String c r =>
      match trimEnd r with
      | EmptyString => if isSpace c then EmptyString else String c EmptyString
      | r' => String c r'
      end
  end.

Definition trim (s : string) : string := trimEnd (trimStart s).

(** [s.substr(start, len)] for non-negative [start] and [len]. *)
Definition substr (s : string) (start len : nat) : string :=
  String.substring start (Nat.min len (String.length s - start)) s.

(** Truthiness of a string: every string but the empty one. *)
Definition truthy (s : string) : bool :=
  match s with EmptyString => false | _ => true end.

Definition truthyOpt (o : option string) : bool :=
  match o with
  | Some s => truthy s
  | None => false
  end.

Fixpoint startsWith (p s : string) : bool :=
  match p, s with
  | EmptyString, _ => true
  | String a p', String b s' => Ascii.eqb a b && startsWith p' s'
  | _, EmptyString => false
  end.

Fixpoint allChars (f : ascii -> bool) (s : string) : bool :=
  match s with
  | EmptyString => true
  | String c r => f c && allChars f r
  end.

End JsString.

(** ** JavaScript Numbers *)

Module JsNumber.

Definition prec : Z := 53.
Definition emax : Z := 1024.

(** The Number nearest to the real [m * 2^e]. *)
Definition ofScaled (m e : Z) : spec_float := binary_normalize prec emax m e false.

(** The Number of an integer literal or of an integer count. *)
Definition ofZ (z : Z) : spec_float := ofScaled z 0.

Definition sub : spec_float -> spec_float -> spec_float := SFsub prec emax.
Definition mul : spec_float -> spec_float -> spec_float := SFmul prec emax.
Definition div : spec_float -> spec_float -> spec_float := SFdiv prec emax.

(** Decimal digits of an integer. *)
Definition decimal (z : Z) : string := NilZero.string_of_int (Z.to_int z).

Fixpoint zeros (n : nat) : string :=
  match n with
  | O => EmptyString
  | S k => String "0" (zeros k)
  end.

(** The integer [n] for which [n / 10^f - m * 2^e] is closest to zero, the
    larger one when two are as close. *)
Definition scaledNearest (f : nat) (m : positive) (e : Z) : Z :=
  let p := 10 ^ Z.of_nat f in
  if 0 <=? e then Z.pos m * 2 ^ e * p
  else (2 * Z.pos m * p + 2 ^ (- e)) / (2 * 2 ^ (- e)).

(** Steps 11.b and 11.c of [Number.prototype.toFixed]: the digits of [n]
    with a point before the last [f] of them. *)
Definition fixedDigits (f : nat) (n : Z) : string :=
  let m := decimal n in
  let k := String.length m in
  let m' := if (k <=? f)%nat then zeros (f + 1 - k) ++ m else m in
  let k' := String.length m' in
  if (f =? 0)%nat then m'
  else String.substring 0 (k' - f) m' ++ "." ++ String.substring (k' - f) f m'.

(** Number of decimal digits of a positive integer. *)
Definition numDigits (z : Z) : nat := String.length (decimal z).

(** [Number::toString] of an integer Number of at least 10^21: the
    shortest digit string [s] (with [k] digits) whose value
    [s * 10^(n-k)] rounds to the Number, printed in exponent form. *)
Fixpoint shortest (fuel k : nat) (n : nat) (v : Z) (x : spec_float) : Z * nat :=
  let p := 10 ^ Z.of_nat (n - k) in
  let lo := v / p in
  let hi := lo + 1 in
  let okLo := SFeqb (ofZ (lo * p)) x in
  let okHi := SFeqb (ofZ (hi * p)) x && (hi <? 10 ^ Z.of_nat k) in
  let dLo := v - lo * p in
  let dHi := hi * p - v in
  match fuel with
  | O => (lo, k)
  | S fuel' =>
      if okLo && okHi then
        (if dLo <? dHi then lo
         else if dHi <? dLo then hi
         else if Z.even lo then lo else hi, k)
      else if okLo then (lo, k)
      else if okHi then (hi, k)
      else shortest fuel' (S k) n v x
  end.

Definition exponentForm (v : Z) (x : spec_float) : string :=
  let n := numDigits v in
  let '(s, k) := shortest 20 1 n v x in
  let d := decimal s in
  (if (k =? 1)%nat then d
   else String.substring 0 1 d ++ "." ++ String.substring 1 (k - 1) d)
  ++ "e+" ++ decimal (Z.of_nat n - 1).

(** [Number.prototype.toFixed(f)]. *)
Definition toFixed (f : nat) (x : spec_float) : string :=
  match x with
  | S754_nan => "NaN"
  | S754_infinity false => "Infinity"
  | S754_infinity true => "-Infinity"
  | S754_zero _ => fixedDigits f 0
  | S754_finite s m e =>
      let sign := if s then "-" else EmptyString in
      if (0 <=? e) && (10 ^ 21 <=? Z.pos m * 2 ^ e)
      then sign ++ exponentForm (Z.pos m * 2 ^ e) (S754_finite false m e)
      else sign ++ fixedDigits f (scaledNearest f m e)
  end.

(** Digits of an integer in radix [r] (from 2 to 36), lower case, as
    [Number.prototype.toString(r)] prints a safe integer. *)
Definition digitChar (d : Z) : ascii :=
  if d <? 10 then ascii_of_nat (48 + Z.to_nat d)
  else ascii_of_nat (87 + Z.to_nat d).

Fixpoint radixDigits (fuel : nat) (r n : Z) (acc : string) : string :=
  match fuel with
  | O => acc
  | S fuel' =>
      let acc' := String (digitChar (n mod r)) acc in
      if n / r =? 0 then acc' else radixDigits fuel' r (n / r) acc'
  end.

Definition toStringRadix (r n : Z) : string :=
  if n <? 0 then "-" ++ radixDigits (S (Z.to_nat (Z.log2 (- n)))) r (- n) EmptyString
  else radixDigits (S (Z.to_nat (Z.log2 n))) r n EmptyString.

(** [parseInt(s)] without a radix: white space, a sign, an optional
    [0x] prefix, then the longest run of digits; the result is the Number
    nearest to the integer read, or NaN. *)
Definition digitOf (c : ascii) : option Z :=
  let n := Z.of_nat (nat_of_ascii c) in
  if (48 <=? n) && (n <=? 57) then Some (n - 48)
  else if (97 <=? n) && (n <=? 122) then Some (n - 87)
  else if (65 <=? n) && (n <=? 90) then Some (n - 55)
  else None.

Fixpoint readRadix (r : Z) (s : string) (acc : Z) (count : nat) : Z * nat :=
  match s with
  | String c rest =>
      match digitOf c with
      | Some d =>
          if d <? r then readRadix r rest (acc * r + d) (S count)
          else (acc, count)
      | None => (acc, count)
      end
  | EmptyString => (acc, count)
  end.

Definition parseInt (s : string) : spec_float :=
  let t := JsString.trimStart s in
  let '(neg, u) :=
    match t with
    | String "-" r => (true, r)
    | String "+" r => (false, r)
    | _ => (false, t)
    end in
  let '(radix, v) :=
    match u with
    | String "0" (String "x" r) => (16, r)
    | String "0" (String "X" r) => (16, r)
    | _ => (10, u)
    end in
  match readRadix radix v 0 0 with
  | (_, O) => S754_nan
  | (n, S _) => ofZ (if neg then - n else n)
  end.

(** The integer a Number is, when it is a finite integer. *)
Definition integerOf (x : spec_float) : option Z :=
  match x with
  | S754_zero _ => Some 0
  | S754_finite s m e =>
      let sign (v : Z) := if s then - v else v in
      if 0 <=? e then Some (sign (Z.pos m * 2 ^ e))
      else if Z.pos m mod 2 ^ (- e) =? 0
      then Some (sign (Z.pos m / 2 ^ (- e)))
      else None
  | _ => None
  end.

(** [StringToNumber] on a decimal literal ([StrDecimalLiteral]: an
    optional sign, then [Infinity] or digits with an optional fraction and
    an optional exponent).  A finite result is the exact value of the
    literal: only its comparison with zero is used, which rounding to a
    Number preserves.  The forms [toFixed] never prints (radix prefixes)
    are not read. *)
Inductive numeric : Type :=
| NaN : numeric
| Inf (negative : bool) : numeric
| Fin (q : Q) : numeric.

Definition isDigit (c : ascii) : bool :=
  let n := nat_of_ascii c in (48 <=? n)%nat && (n <=? 57)%nat.

Definition digitVal (c : ascii) : Z := Z.of_nat (nat_of_ascii c) - 48.

(** Reads the digits at the head of [s]: their value after [acc], how
    many there were, and the rest of [s]. *)
Fixpoint readDigits (s : string) (acc : Z) (count : nat) : Z * nat * string :=
  match s with
  | String c r =>
      if isDigit c then readDigits r (10 * acc + digitVal c) (S count)
      else (acc, count, s)
  | EmptyString => (acc, count, s)
  end.

Definition readExponent (s : string) : option Z :=
  match s with
  | EmptyString => Some 0
  | String c r =>
      if Ascii.eqb c "e" || Ascii.eqb c "E" then
        let '(neg, r') :=
          match r with
          | String "-" t => (true, t)
          | String "+" t => (false, t)
          | _ => (false, r)
          end in
        match readDigits r' 0 0 with
        | (x, S _, EmptyString) => Some (if neg then - x else x)
        | _ => None
        end
      else None
  end.

Definition readDecimal (s : string) : option Q :=
  let '(i, ni, r1) := readDigits s 0 0 in
  let '(m, nf, r2) :=
    match r1 with
    | String "." t => let '(m, nf, r2) := readDigits t i 0 in (m, nf, r2)
    | _ => (i, O, r1)
    end in
  if (ni + nf =? 0)%nat then None
  else
    match readExponent r2 with
    | Some x =>
        let q := Qmake m (Z.to_pos (10 ^ Z.of_nat nf)) in
        Some (if 0 <=? x then q * inject_Z (10 ^ x)
              else q / inject_Z (10 ^ (- x)))%Q
    | None => None
    end.

Definition stringToNumber (s : string) : numeric :=
  let t := JsString.trim s in
  let '(neg, body) :=
    match t with
    | String "-" r => (true, r)
    | String "+" r => (false, r)
    | _ => (false, t)
    end in
  match t with
  | EmptyString => Fin 0
  | _ =>
      if String.eqb body "Infinity" then Inf neg
      else
        match readDecimal body with
        | Some q => Fin (if neg then - q else q)%Q
        | None => NaN
        end
  end.

(** [v >= 0] on the Number read from a string. *)
Definition numericGeZero (v : numeric) : bool :=
  match v with
  | NaN => false
  | Inf negative => negb negative
  | Fin q => Qle_bool 0 q
  end.

End JsNumber.

(** ** JavaScript Dates

    The day and calendar functions of the ECMAScript Date specification on
    time values, and the getters and setters the controller calls. *)

Module JsDate.

Definition msPerDay : Z := 1000 * 60 * 60 * 24.

Definition Day (t : Z) : Z := t / msPerDay.
Definition TimeWithinDay (t : Z) : Z := t mod msPerDay.

Definition DaysInYear (y : Z) : Z :=
  if negb (y mod 4 =? 0) then 365
  else if negb (y mod 100 =? 0) then 366
  else if negb (y mod 400 =? 0) then 365
  else 366.

Definition DayFromYear (y : Z) : Z :=
  365 * (y - 1970) + (y - 1969) / 4 - (y - 1901) / 100 + (y - 1601) / 400.

Definition TimeFromYear (y : Z) : Z := msPerDay * DayFromYear y.

(** The largest year [y] with [TimeFromYear y <= t]: one of the three
    years around the mean-year estimate. *)
Definition YearFromTime (t : Z) : Z :=
  let y0 := 1970 + (Day t * 400) / 146097 in
  if TimeFromYear (y0 + 1) <=? t then y0 + 1
  else if TimeFromYear y0 <=? t then y0
  else y0 - 1.

Definition leapDays (y : Z) : Z := if DaysInYear y =? 366 then 1 else 0.

Definition InLeapYear (t : Z) : Z := leapDays (YearFromTime t).

Definition DayWithinYear (t : Z) : Z := Day t - DayFromYear (YearFromTime t).

(** Day number within the year of the first day of month [m] (0 to 11). *)
Definition monthStart (m leap : Z) : Z :=
  if m =? 0 then 0
  else if m =? 1 then 31
  else if m =? 2 then 59 + leap
  else if m =? 3 then 90 + leap
  else if m =? 4 then 120 + leap
  else if m =? 5 then 151 + leap
  else if m =? 6 then 181 + leap
  else if m =? 7 then 212 + leap
  else if m =? 8 then 243 + leap
  else if m =? 9 then 273 + leap
  else if m =? 10 then 304 + leap
  else 334 + leap.

(** The month of day [d] of a year with [l] leap days. *)
Definition monthOfDay (d l : Z) : Z :=
  if d <? 31 then 0
  else if d <? 59 + l then 1
  else if d <? 90 + l then 2
  else if d <? 120 + l then 3
  else if d <? 151 + l then 4
  else if d <? 181 + l then 5
  else if d <? 212 + l then 6
  else if d <? 243 + l then 7
  else if d <? 273 + l then 8
  else if d <? 304 + l then 9
  else if d <? 334 + l then 10
  else 11.

Definition MonthFromTime (t : Z) : Z :=
  monthOfDay (DayWithinYear t) (InLeapYear t).

Definition DateFromTime (t : Z) : Z :=
  DayWithinYear t - monthStart (MonthFromTime t) (InLeapYear t) + 1.

(** [MakeDay]: the day number of the first of month [month mod 12] in year
    [year + floor(month / 12)], moved by [date - 1] days. *)
Definition MakeDay (year month date : Z) : Z :=
  let ym := year + month / 12 in
  let mn := month mod 12 in
  DayFromYear ym + monthStart mn (leapDays ym) + date - 1.

Definition MakeDate (day time : Z) : Z := day * msPerDay + time.

(** Number of days of month [m] (0 to 11) of year [y]. *)
Definition monthLength (m leap : Z) : Z :=
  if m =? 11 then 31 else monthStart (m + 1) leap - monthStart m leap.

Definition DaysInMonth (y m : Z) : Z := monthLength m (leapDays y).

(** A time zone ([LocalTZA]): the offset of local time from UTC, in
    milliseconds, at a UTC time value and at a local time value. The two
    differ around a daylight-saving change. *)
Record Zone : Type := mkZone {
  utcOffset : Z -> Z;
  localOffset : Z -> Z
}.

(** A zone without daylight saving. *)
Definition fixedZone (tza : Z) : Zone := mkZone (fun _ => tza) (fun _ => tza).

Section LocalZone.

(** The time zone of the server. *)
Variable zone : Zone.

Definition LocalTime (t : Z) : Z := t + utcOffset zone t.
Definition UTC (t : Z) : Z := t - localOffset zone t.

Definition getDate (d : Z) : Z := DateFromTime (LocalTime d).
Definition getMonth (d : Z) : Z := MonthFromTime (LocalTime d).
Definition getFullYear (d : Z) : Z := YearFromTime (LocalTime d).

Definition setDate (d dt : Z) : Z :=
  let t := LocalTime d in
  UTC (MakeDate (MakeDay (YearFromTime t) (MonthFromTime t) dt)
                (TimeWithinDay t)).

Definition setMonth (d m : Z) : Z :=
  let t := LocalTime d in
  UTC (MakeDate (MakeDay (YearFromTime t) m (DateFromTime t))
                (TimeWithinDay t)).

Definition setFullYear (d y : Z) : Z :=
  let t := LocalTime d in
  UTC (MakeDate (MakeDay y (MonthFromTime t) (DateFromTime t))
                (TimeWithinDay t)).

End LocalZone.

End JsDate.

(** ** Regular expressions of the schemas' [match] validators

    Matching by derivatives: [deriv c r] accepts the words [w] for which
    [r] accepts [c :: w]. *)

Module Regex.

Inductive regex : Type :=
| Void : regex
| Eps : regex
| Class (p : ascii -> bool) : regex
| Seq (r1 r2 : regex) : regex
| Alt (r1 r2 : regex) : regex
| Star (r : regex) : regex.

Fixpoint nullable (r : regex) : bool :=
  match r with
  | Void => false
  | Eps => true
  | Class _ => false
  | Seq r1 r2 => nullable r1 && nullable r2
  | Alt r1 r2 => nullable r1 || nullable r2
  | Star _ => true
  end.

Definition seq (r1 r2 : regex) : regex :=
  match r1, r2 with
  | Void, _ => Void
  | _, Void => Void
  | Eps, _ => r2
  | _, _ => Seq r1 r2
  end.

Definition alt (r1 r2 : regex) : regex :=
  match r1, r2 with
  | Void, _ => r2
  | _, Void => r1
  | _, _ => Alt r1 r2
  end.

Fixpoint deriv (c : ascii) (r : regex) : regex :=
  match r with
  | Void => Void
  | Eps => Void
  | Class p => if p c then Eps else Void
  | Seq r1 r2 =>
      if nullable r1 then alt (seq (deriv c r1) r2) (deriv c r2)
      else seq (deriv c r1) r2
  | Alt r1 r2 => alt (deriv c r1) (deriv c r2)
  | Star r1 => seq (deriv c r1) (Star r1)
  end.

(** [/^r$/.test(s)] *)
Fixpoint test (r : regex) (s : string) : bool :=
  match s with
  | EmptyString => nullable r
  | String c s' => test (deriv c r) s'
  end.

Definition plus (r : regex) : regex := Seq r (Star r).
Definition opt (r : regex) : regex := Alt Eps r.
Definition char (a : ascii) : regex := Class (Ascii.eqb a).

(** [\w]: letters, digits and the underscore. *)
Definition word : regex :=
  Class (fun c => JsString.isUpper c || JsString.isLower c
                  || JsNumber.isDigit c || Ascii.eqb c "_").

(** [[.-]] *)
Definition dotDash : regex :=
  Class (fun c => Ascii.eqb c "." || Ascii.eqb c "-").

(** [\w+([.-]?\w+)*] *)
Definition dottedWords : regex :=
  Seq (plus word) (Star (Seq (opt dotDash) (plus word))).

(** [/^\w+([.-]?\w+)*@\w+([.-]?\w+)*(\.\w{2,3})+$/] *)
Definition emailPattern : regex :=
  Seq dottedWords
    (Seq (char "@")
       (Seq dottedWords
          (plus (Seq (char ".") (Seq word (Seq word (opt word))))))).

End Regex.

(** ** The Customer model ([models/Customer.js]) *)

Record Customer : Type := mkCustomer {
  _id : nat;
  customerName : string;
  email : string;
  phone : string;
  ordersCount : Z;
  orderTotal : Q;
  customerSince : Z;
  status : string;
  abandonedCarts : Z;
  createdAt : Z;
  updatedAt : Z
}.

(** Errors a model operation rejects with. [DuplicateKey] is the driver's
    error of code 11000, raised by a unique index; [CastError] is raised
    for an identity that is not an ObjectId. *)
Inductive MongoError : Type :=
| ValidationError : MongoError
| DuplicateKey : MongoError
| CastError : MongoError.

Definition errorCode (e : MongoError) : option Z :=
  match e with
  | DuplicateKey => Some 11000
  | ValidationError => None
  | CastError => None
  end.

(** [req.params.id]: a string that casts to an ObjectId (the identities
    are numbered), or one that does not. *)
Inductive IdParam : Type :=
| ObjectId (n : nat) : IdParam
| NotObjectId : IdParam.

Inductive result (A : Type) : Type :=
| Resolved (a : A) : result A
| Rejected (e : MongoError) : result A.

Arguments Resolved {A} a.
Arguments Rejected {A} e.

Module CustomerModel.

(** Setters of the schema: [trim] on [customerName] and [phone],
    [lowercase] on [email]. They run on assigned values and on the values
    of query filters. *)
Definition setCustomerName (s : string) : string := JsString.trim s.
Definition setEmail (s : string) : string := JsString.toLowerCase s.
Definition setPhone (s : string) : string := JsString.trim s.

(** Validators of the schema. *)
Definition required (s : string) : bool := JsString.truthy s.

Definition matchEmail (s : string) : bool :=
  if String.eqb s EmptyString then true else Regex.test Regex.emailPattern s.

Definition statusEnum (s : string) : bool :=
  String.eqb s "active" || String.eqb s "inactive".

Definition validate (c : Customer) : bool :=
  required (customerName c)
  && (String.length (customerName c) <=? 100)%nat
  && required (email c)
  && matchEmail (email c)
  && required (phone c)
  && (0 <=? ordersCount c)
  && Qle_bool 0 (orderTotal c)
  && required (status c)
  && statusEnum (status c)
  && (0 <=? abandonedCarts c).

(** [Customer.countDocuments(filter)] *)
Definition countDocuments (db : list Customer) (filter : Customer -> bool) : Z :=
  Z.of_nat (List.length (List.filter filter db)).

(** [Customer.aggregate([{ $group: { _id: null, total: { $sum:
    '$abandonedCarts' } } }])]: one group for a collection that has
    documents, none for an empty one. *)
Definition aggregateAbandonedCarts (db : list Customer) : list Z :=
  match db with
  | [] => []
  | _ => [fold_right (fun c acc => abandonedCarts c + acc) 0 db]
  end.

(** [Customer.findOne({ email })] *)
Definition findOneByEmail (db : list Customer) (e : string) : option Customer :=
  List.find (fun c => String.eqb (email c) (setEmail e)) db.

(** The document of an identity. *)
Definition documentWithId (db : list Customer) (id : nat) : option Customer :=
  List.find (fun c => Nat.eqb (_id c) id) db.

(** [Customer.findById(id)]: the cast of the identity fails for a string
    that is not an ObjectId. *)
Definition findById (db : list Customer) (id : IdParam)
  : result (option Customer) :=
  match id with
  | ObjectId n => Resolved (documentWithId db n)
  | NotObjectId => Rejected CastError
  end.

(** The collection without the first document of an identity. *)
Fixpoint removeById (db : list Customer) (id : nat) : list Customer :=
  match db with
  | [] => []
  | c :: rest =>
      if Nat.eqb (_id c) id then rest else c :: removeById rest id
  end.

(** [Customer.findByIdAndDelete(id)] *)
Definition findByIdAndDelete (db : list Customer) (id : IdParam)
  : result (list Customer) :=
  match id with
  | ObjectId n => Resolved (removeById db n)
  | NotObjectId => Rejected CastError
  end.

(** The identity the store generates for a new document. *)
Definition freshId (db : list Customer) : nat :=
  S (fold_right (fun c m => Nat.max (_id c) m) O db).

(** [Customer.create(data)]: setters, validation, then the insertion,
    which the unique index on [email] can refuse. [timestamps] sets
    [createdAt] and [updatedAt]. *)
Definition create (db : list Customer) (now : Z)
    (name mail tel : string) (orders : Z) (total : Q) (since : Z)
    (st : string) (carts : Z) : result (Customer * list Customer) :=
  let doc := mkCustomer (freshId db) (setCustomerName name) (setEmail mail)
               (setPhone tel) orders total since st carts now now in
  if negb (validate doc) then Rejected ValidationError
  else if existsb (fun c => String.eqb (email c) (email doc)) db
  then Rejected DuplicateKey
  else Resolved (doc, (db ++ [doc])%list).

(** Whether a path of [doc] differs from the loaded document [orig]. *)
Definition isModified (orig doc : Customer) : bool :=
  negb (String.eqb (customerName orig) (customerName doc)
        && String.eqb (email orig) (email doc)
        && String.eqb (phone orig) (phone doc)
        && (ordersCount orig =? ordersCount doc)
        && Qeq_bool (orderTotal orig) (orderTotal doc)
        && (customerSince orig =? customerSince doc)
        && String.eqb (status orig) (status doc)
        && (abandonedCarts orig =? abandonedCarts doc)).

Definition replace (db : list Customer) (doc : Customer) : list Customer :=
  List.map (fun c => if Nat.eqb (_id c) (_id doc) then doc else c) db.

Definition withUpdatedAt (doc : Customer) (now : Z) : Customer :=
  mkCustomer (_id doc) (customerName doc) (email doc) (phone doc)
    (ordersCount doc) (orderTotal doc) (customerSince doc) (status doc)
    (abandonedCarts doc) (createdAt doc) now.

(** [doc.save()] on a document loaded as [orig]: validation, then, when a
    path was modified, the write of the modified paths, which refreshes
    [updatedAt] and which the unique index on [email] refuses when it
    gives the document the [email] of another one. *)
Definition save (db : list Customer) (now : Z) (orig doc : Customer)
  : result (Customer * list Customer) :=
  if negb (validate doc) then Rejected ValidationError
  else if negb (isModified orig doc) then Resolved (doc, db)
  else if negb (String.eqb (email orig) (email doc))
          && existsb (fun c => negb (Nat.eqb (_id c) (_id doc))
                               && String.eqb (email c) (email doc)) db
  then Rejected DuplicateKey
  else
    let doc' := withUpdatedAt doc now in
    Resolved (doc', replace db doc').

End CustomerModel.

(** ** Requests and responses *)

(** A value of [req.query]: absent, a string, or an array or object built
    by the query-string parser. *)
Inductive QueryValue : Type :=
| QAbsent : QueryValue
| QString (s : string) : QueryValue
| QStructured : QueryValue.

(** The body of a create or update request; [None] is [undefined]. *)
Module Body.
Record t : Type := mk {
  customerName : option string;
  email : option string;
  phone : option string;
  ordersCount : option Z;
  orderTotal : option Q;
  customerSince : option Z;
  status : option string;
  abandonedCarts : option Z
}.

Definition empty : t := mk None None None None None None None None.
End Body.

(** Metrics of the summary response. *)
Module Summary.
Record Metric : Type := mkMetric {
  value : Z;
  change : option string
}.

Record Metrics : Type := mkMetrics {
  allCustomers : Metric;
  activeCustomers : Metric;
  inactiveCustomers : Metric;
  newCustomers : Metric;
  purchasingCustomers : Metric;
  abandonedCarts : Metric
}.
End Summary.

Inductive Payload : Type :=
| NoData : Payload
| CustomerData (c : Customer) : Payload
| SummaryData (timeframe : string) (metrics : Summary.Metrics) : Payload
| CustomerList (count total page pages : Z) (docs : list Customer) : Payload.

(** A JSON response: the status code, the [success] flag, the [message]
    and the [data]. (The [error] text of a 500 response is the message of
    the caught exception and is left out.) *)
Record Response : Type := mkResponse {
  statusCode : Z;
  success : bool;
  message : option string;
  data : Payload
}.

Definition failure (code : Z) (msg : string) : Response :=
  mkResponse code false (Some msg) NoData.

(** ** The customer controller ([controllers/customerController.js]) *)

Module CustomerController.

Import CustomerModel.

(** What [calculateChange] returns: one of the integer literals, or the
    string printed by [toFixed]. *)
Inductive JsValue : Type :=
| JsInt (z : Z) : JsValue
| JsStr (s : string) : JsValue.

(** The arguments are counts: integers, compared with zero as such; the
    quotient is computed on Numbers. *)
Definition calculateChange (current previous : Z) : JsValue :=
  if previous =? 0 then (if 0 <? current then JsInt 100 else JsInt 0)
  else
    JsStr (JsNumber.toFixed 2
             (JsNumber.mul
                (JsNumber.div
                   (JsNumber.sub (JsNumber.ofZ current) (JsNumber.ofZ previous))
                   (JsNumber.ofZ previous))
                (JsNumber.ofZ 100))).

(** [x >= 0]: a string operand is converted to a Number first. *)
Definition geZero (x : JsValue) : bool :=
  match x with
  | JsInt z => 0 <=? z
  | JsStr s => JsNumber.numericGeZero (JsNumber.stringToNumber s)
  end.

(** The string a template literal prints for [x]. *)
Definition toString (x : JsValue) : string :=
  match x with
  | JsInt z => JsNumber.decimal z
  | JsStr s => s
  end.

(** [`${x >= 0 ? '+' : ''}${x}%`] *)
Definition changeText (x : JsValue) : string :=
  (if geZero x then "+" else EmptyString) ++ toString x ++ "%".

(** The change string of a metric with counts [current] and [previous]. *)
Definition renderedChange (current previous : Z) : string :=
  changeText (calculateChange current previous).

Section Handlers.

(** The time zone of the server. *)
Variable zone : JsDate.Zone.

(** The [switch] on [timeframe.toLowerCase()]. *)
Definition startDateOf (today : Z) (timeframe : string) : Z :=
  let tf := JsString.toLowerCase timeframe in
  if String.eqb tf "week" then
    JsDate.setDate zone today (JsDate.getDate zone today - 7)
  else if String.eqb tf "month" then
    JsDate.setMonth zone today (JsDate.getMonth zone today - 1)
  else if String.eqb tf "year" then
    JsDate.setFullYear zone today (JsDate.getFullYear zone today - 1)
  else
    JsDate.setDate zone today (JsDate.getDate zone today - 7).

(** The constants [getCustomerSummary] computes before it responds. *)
Record Locals : Type := mkLocals {
  startDate : Z;
  previousEndDate : Z;
  periodDays : Z;
  previousStartDate : Z;
  allCustomers : Z;
  activeCustomers : Z;
  inactiveCustomers : Z;
  newCustomers : Z;
  purchasingCustomers : Z;
  totalAbandonedCarts : list Z;
  prevAllCustomers : Z;
  prevActiveCustomers : Z;
  prevInactiveCustomers : Z;
  prevNewCustomers : Z;
  allCustomersChange : JsValue;
  activeCustomersChange : JsValue;
  inactiveCustomersChange : JsValue;
  newCustomersChange : JsValue
}.

Definition summaryLocals (db : list Customer) (today : Z) (timeframe : string)
  : Locals :=
  let startDate := startDateOf today timeframe in
  let previousEndDate := startDate in
  let periodDays := (today - startDate) / (1000 * 60 * 60 * 24) in
  let previousStartDate :=
    JsDate.setDate zone previousEndDate
      (JsDate.getDate zone previousEndDate - periodDays) in
  let allCustomers := countDocuments db (fun _ => true) in
  let activeCustomers :=
    countDocuments db (fun c => String.eqb (status c) "active") in
  let inactiveCustomers :=
    countDocuments db (fun c => String.eqb (status c) "inactive") in
  let newCustomers :=
    countDocuments db (fun c => startDate <=? customerSince c) in
  let purchasingCustomers :=
    countDocuments db (fun c => 0 <? ordersCount c) in
  let totalAbandonedCarts := aggregateAbandonedCarts db in
  let prevAllCustomers :=
    countDocuments db (fun c => customerSince c <? startDate) in
  let prevActiveCustomers :=
    countDocuments db (fun c => String.eqb (status c) "active"
                                && (customerSince c <? startDate)) in
  let prevInactiveCustomers :=
    countDocuments db (fun c => String.eqb (status c) "inactive"
                                && (customerSince c <? startDate)) in
  let prevNewCustomers :=
    countDocuments db (fun c => (previousStartDate <=? customerSince c)
                                && (customerSince c <? startDate)) in
  mkLocals startDate previousEndDate periodDays previousStartDate
    allCustomers activeCustomers inactiveCustomers newCustomers
    purchasingCustomers totalAbandonedCarts
    prevAllCustomers prevActiveCustomers prevInactiveCustomers
    prevNewCustomers
    (calculateChange allCustomers prevAllCustomers)
    (calculateChange activeCustomers prevActiveCustomers)
    (calculateChange inactiveCustomers prevInactiveCustomers)
    (calculateChange newCustomers prevNewCustomers).

(** [totalAbandonedCarts[0]?.total || 0] *)
Definition abandonedCartsValue (groups : list Z) : Z :=
  match groups with
  | total :: _ => if total =? 0 then 0 else total
  | [] => 0
  end.

Definition summaryMetrics (l : Locals) : Summary.Metrics :=
  Summary.mkMetrics
    (Summary.mkMetric (allCustomers l)
       (Some (changeText (allCustomersChange l))))
    (Summary.mkMetric (activeCustomers l)
       (Some (changeText (activeCustomersChange l))))
    (Summary.mkMetric (inactiveCustomers l)
       (Some (changeText (inactiveCustomersChange l))))
    (Summary.mkMetric (newCustomers l)
       (Some (changeText (newCustomersChange l))))
    (Summary.mkMetric (purchasingCustomers l) None)
    (Summary.mkMetric (abandonedCartsValue (totalAbandonedCarts l)) None).

Definition summaryResponse (db : list Customer) (today : Z)
    (timeframe : string) : Response :=
  mkResponse 200 true None
    (SummaryData timeframe
       (summaryMetrics (summaryLocals db today timeframe))).

(** [GET /api/customers/summary]. The parameter defaults to ['week'];
    a value that is not a string has no [toLowerCase], and the
    exception ends in the 500 response. *)
Definition getCustomerSummary (db : list Customer) (today : Z)
    (timeframe : QueryValue) : Response :=
  match timeframe with
  | QAbsent => summaryResponse db today "week"
  | QString s => summaryResponse db today s
  | QStructured => failure 500 "Error retrieving customer summary"
  end.

End Handlers.

(** [a || b] on strings, numbers and dates. *)
Definition orString (o : option string) (d : string) : string :=
  match o with
  | Some s => if JsString.truthy s then s else d
  | None => d
  end.

Definition orZ (o : option Z) (d : Z) : Z :=
  match o with
  | Some n => if n =? 0 then d else n
  | None => d
  end.

Definition orQ (o : option Q) (d : Q) : Q :=
  match o with
  | Some q => if Qeq_bool q 0 then d else q
  | None => d
  end.

(** The date of a request is its time value; the number 0 is falsy. *)
Definition orDate (o : option Z) (d : Z) : Z :=
  match o with
  | Some t => if t =? 0 then d else t
  | None => d
  end.

(** [POST /api/customers] *)
Definition createCustomer (db : list Customer) (now : Z) (body : Body.t)
  : Response * list Customer :=
  if negb (JsString.truthyOpt (Body.customerName body))
     || negb (JsString.truthyOpt (Body.email body))
     || negb (JsString.truthyOpt (Body.phone body))
  then (failure 400 "Customer name, email, and phone are required", db)
  else
    match findOneByEmail db (orString (Body.email body) EmptyString) with
    | Some _ => (failure 400 "Customer with this email already exists", db)
    | None =>
        match create db now
                (orString (Body.customerName body) EmptyString)
                (orString (Body.email body) EmptyString)
                (orString (Body.phone body) EmptyString)
                (orZ (Body.ordersCount body) 0)
                (orQ (Body.orderTotal body) 0)
                (orDate (Body.customerSince body) now)
                (orString (Body.status body) "active")
                (orZ (Body.abandonedCarts body) 0) with
        | Resolved (customer, db') =>
            (mkResponse 201 true (Some "Customer created successfully")
               (CustomerData customer), db')
        | Rejected e =>
            match errorCode e with
            | Some 11000 =>
                (failure 400 "Customer with this email already exists", db)
            | _ => (failure 500 "Error creating customer", db)
            end
        end
    end.

(** Assignments to the paths of a document; the schema's setters run. *)
Definition assignEmail (c : Customer) (v : string) : Customer :=
  mkCustomer (_id c) (customerName c) (setEmail v) (phone c) (ordersCount c)
    (orderTotal c) (customerSince c) (status c) (abandonedCarts c)
    (createdAt c) (updatedAt c).

Definition assignCustomerName (c : Customer) (v : string) : Customer :=
  mkCustomer (_id c) (setCustomerName v) (email c) (phone c) (ordersCount c)
    (orderTotal c) (customerSince c) (status c) (abandonedCarts c)
    (createdAt c) (updatedAt c).

Definition assignPhone (c : Customer) (v : string) : Customer :=
  mkCustomer (_id c) (customerName c) (email c) (setPhone v) (ordersCount c)
    (orderTotal c) (customerSince c) (status c) (abandonedCarts c)
    (createdAt c) (updatedAt c).

Definition assignOrdersCount (c : Customer) (v : Z) : Customer :=
  mkCustomer (_id c) (customerName c) (email c) (phone c) v
    (orderTotal c) (customerSince c) (status c) (abandonedCarts c)
    (createdAt c) (updatedAt c).

Definition assignOrderTotal (c : Customer) (v : Q) : Customer :=
  mkCustomer (_id c) (customerName c) (email c) (phone c) (ordersCount c)
    v (customerSince c) (status c) (abandonedCarts c)
    (createdAt c) (updatedAt c).

Definition assignCustomerSince (c : Customer) (v : Z) : Customer :=
  mkCustomer (_id c) (customerName c) (email c) (phone c) (ordersCount c)
    (orderTotal c) v (status c) (abandonedCarts c)
    (createdAt c) (updatedAt c).

Definition assignStatus (c : Customer) (v : string) : Customer :=
  mkCustomer (_id c) (customerName c) (email c) (phone c) (ordersCount c)
    (orderTotal c) (customerSince c) v (abandonedCarts c)
    (createdAt c) (updatedAt c).

Definition assignAbandonedCarts (c : Customer) (v : Z) : Customer :=
  mkCustomer (_id c) (customerName c) (email c) (phone c) (ordersCount c)
    (orderTotal c) (customerSince c) (status c) v
    (createdAt c) (updatedAt c).

(** [if (v) customer.path = v] on a string path. *)
Definition whenTruthy (assign : Customer -> string -> Customer)
    (o : option string) (c : Customer) : Customer :=
  match o with
  | Some v => if JsString.truthy v then assign c v else c
  | None => c
  end.

(** [if (v) customer.path = v] on the date path. *)
Definition whenNonZero (assign : Customer -> Z -> Customer)
    (o : option Z) (c : Customer) : Customer :=
  match o with
  | Some v => if v =? 0 then c else assign c v
  | None => c
  end.

(** [if (v !== undefined) customer.path = v] *)
Definition whenDefined {A : Type} (assign : Customer -> A -> Customer)
    (o : option A) (c : Customer) : Customer :=
  match o with
  | Some v => assign c v
  | None => c
  end.

(** [email && email !== customer.email] *)
Definition emailChanges (customer : Customer) (o : option string) : bool :=
  match o with
  | Some e => JsString.truthy e && negb (String.eqb e (email customer))
  | None => false
  end.

(** The field updates of [updateCustomer], in the order of the source. *)
Definition applyBody (customer : Customer) (body : Body.t) : Customer :=
  let c1 := if emailChanges customer (Body.email body)
            then assignEmail customer (orString (Body.email body) EmptyString)
            else customer in
  let c2 := whenTruthy assignCustomerName (Body.customerName body) c1 in
  let c3 := whenTruthy assignPhone (Body.phone body) c2 in
  let c4 := whenDefined assignOrdersCount (Body.ordersCount body) c3 in
  let c5 := whenDefined assignOrderTotal (Body.orderTotal body) c4 in
  let c6 := whenNonZero assignCustomerSince (Body.customerSince body) c5 in
  let c7 := whenTruthy assignStatus (Body.status body) c6 in
  whenDefined assignAbandonedCarts (Body.abandonedCarts body) c7.

(** [PUT /api/customers/:id] *)
Definition updateCustomer (db : list Customer) (now : Z) (id : IdParam)
    (body : Body.t) : Response * list Customer :=
  match findById db id with
  | Rejected _ => (failure 500 "Error updating customer", db)
  | Resolved None => (failure 404 "Customer not found", db)
  | Resolved (Some customer) =>
      let conflict :=
        if emailChanges customer (Body.email body)
        then match findOneByEmail db (orString (Body.email body) EmptyString) with
             | Some _ => true
             | None => false
             end
        else false in
      if conflict
      then (failure 400 "Another customer with this email already exists", db)
      else
        match save db now customer (applyBody customer body) with
        | Resolved (updatedCustomer, db') =>
            (mkResponse 200 true (Some "Customer updated successfully")
               (CustomerData updatedCustomer), db')
        | Rejected e =>
            match errorCode e with
            | Some 11000 => (failure 400 "Email already exists", db)
            | _ => (failure 500 "Error updating customer", db)
            end
        end
  end.

(** [PATCH /api/customers/:id/status] *)
Definition updateCustomerStatus (db : list Customer) (now : Z) (id : IdParam)
    (st : option string) : Response * list Customer :=
  if negb (JsString.truthyOpt st)
     || negb (existsb (String.eqb (orString st EmptyString)) ["active"; "inactive"])
  then (failure 400 "Valid status (active or inactive) is required", db)
  else
    match findById db id with
    | Rejected _ => (failure 500 "Error updating customer status", db)
    | Resolved None => (failure 404 "Customer not found", db)
    | Resolved (Some customer) =>
        match save db now customer (assignStatus customer (orString st EmptyString)) with
        | Resolved (updatedCustomer, db') =>
            (mkResponse 200 true (Some "Customer status updated successfully")
               (CustomerData updatedCustomer), db')
        | Rejected _ => (failure 500 "Error updating customer status", db)
        end
    end.

(** [GET /api/customers/:id] *)
Definition getCustomerById (db : list Customer) (id : IdParam) : Response :=
  match findById db id with
  | Rejected _ => failure 500 "Error retrieving customer"
  | Resolved None => failure 404 "Customer not found"
  | Resolved (Some customer) =>
      mkResponse 200 true None (CustomerData customer)
  end.

(** [DELETE /api/customers/:id] *)
Definition deleteCustomer (db : list Customer) (id : IdParam)
  : Response * list Customer :=
  match findById db id with
  | Rejected _ => (failure 500 "Error deleting customer", db)
  | Resolved None => (failure 404 "Customer not found", db)
  | Resolved (Some _) =>
      match findByIdAndDelete db id with
      | Resolved db' =>
          (mkResponse 200 true (Some "Customer deleted successfully") NoData,
           db')
      | Rejected _ => (failure 500 "Error deleting customer", db)
      end
  end.

(** The value a document is sorted by. *)
Inductive SortKey : Type :=
| KNull : SortKey
| KNumber (q : Q) : SortKey
| KString (s : string) : SortKey
| KDate (t : Z) : SortKey
| KId (n : nat) : SortKey.

(** The value of path [field] in a document; a path the documents do not
    have gives the same key for all of them. *)
Definition sortKey (field : string) (c : Customer) : SortKey :=
  if String.eqb field "_id" then KId (_id c)
  else if String.eqb field "customerName" then KString (customerName c)
  else if String.eqb field "email" then KString (email c)
  else if String.eqb field "phone" then KString (phone c)
  else if String.eqb field "ordersCount" then KNumber (inject_Z (ordersCount c))
  else if String.eqb field "orderTotal" then KNumber (orderTotal c)
  else if String.eqb field "customerSince" then KDate (customerSince c)
  else if String.eqb field "status" then KString (status c)
  else if String.eqb field "abandonedCarts"
  then KNumber (inject_Z (abandonedCarts c))
  else if String.eqb field "createdAt" then KDate (createdAt c)
  else if String.eqb field "updatedAt" then KDate (updatedAt c)
  else KNull.

(** Rank of the type of a key in the comparison order of the store. *)
Definition keyRank (k : SortKey) : nat :=
  match k with
  | KNull => 0
  | KNumber _ => 1
  | KString _ => 2
  | KId _ => 3
  | KDate _ => 4
  end.

Definition keyLeb (a b : SortKey) : bool :=
  match a, b with
  | KNull, KNull => true
  | KNumber x, KNumber y => Qle_bool x y
  | KString x, KString y => String.leb x y
  | KDate x, KDate y => x <=? y
  | KId x, KId y => (x <=? y)%nat
  | _, _ => (keyRank a <=? keyRank b)%nat
  end.

(** The paths of the customer schema. *)
Definition schemaPaths : list string :=
  ["_id"; "customerName"; "email"; "phone"; "ordersCount"; "orderTotal";
   "customerSince"; "status"; "abandonedCarts"; "createdAt"; "updatedAt"].

(** The order of [sort({ [field]: direction })]: ascending for 1,
    descending for -1. *)
Definition sortLeb (field : string) (direction : Z) (a b : Customer) : bool :=
  if direction =? 1 then keyLeb (sortKey field a) (sortKey field b)
  else keyLeb (sortKey field b) (sortKey field a).

(** The query parameters of the list endpoint; [None] is an absent
    parameter, the others are strings. *)
Module ListQuery.
Record t : Type := mk {
  page : option string;
  limit : option string;
  sortBy : option string;
  sortOrder : option string;
  search : option string;
  status : option string
}.
End ListQuery.

Section Listing.

(** [{ $regex: pattern, $options: 'i' }] as the store evaluates it:
    the test of a pattern against a string, or [None] for a pattern
    the store refuses. *)
Variable regex : string -> option (string -> bool).

(** The order in which the store returns documents sorted by an order:
    some arrangement of them along that order (documents with equal
    keys come in an order of the store's choice). *)
Variable storeSort : (Customer -> Customer -> bool) -> list Customer
                     -> list Customer.

(** The filter object built from [search] and [status]; [None] when
    the store refuses the pattern. *)
Definition buildFilter (q : ListQuery.t) : option (Customer -> bool) :=
  let byStatus (c : Customer) :=
    match ListQuery.status q with
    | Some st => if JsString.truthy st then String.eqb (status c) st else true
    | None => true
    end in
  if JsString.truthyOpt (ListQuery.search q) then
    match regex (orString (ListQuery.search q) EmptyString) with
    | Some test =>
        Some (fun c => (test (customerName c) || test (email c)
                        || test (phone c)) && byStatus c)
    | None => None
    end
  else Some byStatus.

(** [parseInt] of a parameter that defaults to the number [d]. *)
Definition parseParam (o : option string) (d : Z) : spec_float :=
  match o with
  | Some s => JsNumber.parseInt s
  | None => JsNumber.ofZ d
  end.

(** [Math.ceil(total / limitNum)] for a positive [limitNum] and the
    count of a collection, both safe integers. *)
Definition ceilDiv (total limitNum : Z) : Z :=
  (total + limitNum - 1) / limitNum.

(** [GET /api/customers] for a page number and a limit that parse to
    positive integers whose product is a safe integer (the skip and
    the page count are then exact) and a [sortBy] that is a path of
    the schema; [None] stands for the requests outside of that. *)
Definition getAllCustomers (db : list Customer) (q : ListQuery.t)
  : option Response :=
  match JsNumber.integerOf (parseParam (ListQuery.page q) 1),
        JsNumber.integerOf (parseParam (ListQuery.limit q) 10) with
  | Some pageNum, Some limitNum =>
      let sortBy := match ListQuery.sortBy q with
                    | Some s => s
                    | None => "customerSince"
                    end in
      let sortOrder := match ListQuery.sortOrder q with
                       | Some s => s
                       | None => "desc"
                       end in
      if (1 <=? pageNum) && (1 <=? limitNum)
         && (pageNum * limitNum <=? 2 ^ 53)
         && existsb (String.eqb sortBy) schemaPaths then
        match buildFilter q with
        | None => Some (failure 500 "Error retrieving customers")
        | Some filter =>
            let skip := (pageNum - 1) * limitNum in
            let direction := if String.eqb sortOrder "desc" then -1 else 1 in
            let customers :=
              List.firstn (Z.to_nat limitNum)
                (List.skipn (Z.to_nat skip)
                   (storeSort (sortLeb sortBy direction)
                      (List.filter filter db))) in
            let total := countDocuments db filter in
            Some (mkResponse 200 true None
                    (CustomerList (Z.of_nat (List.length customers)) total
                       pageNum (ceilDiv total limitNum) customers))
        end
      else None
  | _, _ => None
  end.

End Listing.

End CustomerController.

(** ** The Order model ([models/Order.js]) *)

Module OrderModel.

Record Address : Type := mkAddress {
  street : option string;
  city : option string;
  state : option string;
  zipCode : option string;
  country : option string
}.

(** An order document; [None] is a path that is not set. *)
Record Order : Type := mkOrder {
  _id : nat;
  customerName : option string;
  orderDate : Z;
  orderType : string;
  trackingId : option string;
  orderTotal : option Q;
  action : string;
  status : string;
  description : option string;
  customerEmail : option string;
  customerPhone : option string;
  shippingAddress : option Address;
  createdAt : Z;
  updatedAt : Z
}.

(** The object given to [new Order(...)] or [Order.create(...)]. *)
Module Input.
Record t : Type := mk {
  customerName : option string;
  orderDate : option Z;
  orderType : option string;
  trackingId : option string;
  orderTotal : option Q;
  action : option string;
  status : option string;
  description : option string;
  customerEmail : option string;
  customerPhone : option string;
  shippingAddress : option Address
}.
End Input.

(** Setters of the schema. *)
Definition setTrackingId (s : string) : string :=
  JsString.trim (JsString.toUpperCase s).

Definition setCustomerEmail (s : string) : string :=
  JsString.trim (JsString.toLowerCase s).

Definition withDefault (o : option string) (d : string) : string :=
  match o with
  | Some s => s
  | None => d
  end.

Definition freshId (db : list Order) : nat :=
  S (fold_right (fun o m => Nat.max (_id o) m) O db).

(** [new Order(input)]: setters and defaults. *)
Definition construct (db : list Order) (now : Z) (input : Input.t) : Order :=
  mkOrder (freshId db)
    (option_map JsString.trim (Input.customerName input))
    (match Input.orderDate input with Some d => d | None => now end)
    (withDefault (Input.orderType input) "online")
    (option_map setTrackingId (Input.trackingId input))
    (Input.orderTotal input)
    (withDefault (Input.action input) "pending")
    (withDefault (Input.status input) "active")
    (option_map JsString.trim (Input.description input))
    (option_map setCustomerEmail (Input.customerEmail input))
    (option_map JsString.trim (Input.customerPhone input))
    (Input.shippingAddress input)
    now now.

(** Validators of the schema. *)
Definition requiredString (o : option string) : bool :=
  match o with
  | Some s => CustomerModel.required s
  | None => false
  end.

Definition maxlength (n : nat) (o : option string) : bool :=
  match o with
  | Some s => (String.length s <=? n)%nat
  | None => true
  end.

Definition oneOf (values : list string) (s : string) : bool :=
  existsb (String.eqb s) values.

Definition validate (o : Order) : bool :=
  requiredString (customerName o)
  && maxlength 100 (customerName o)
  && JsString.truthy (orderType o)
  && oneOf ["online"; "offline"; "phone"; "email"] (orderType o)
  && requiredString (trackingId o)
  && match orderTotal o with Some q => Qle_bool 0 q | None => false end
  && JsString.truthy (action o)
  && oneOf ["pending"; "processing"; "shipped"; "delivered"; "cancelled";
            "returned"] (action o)
  && JsString.truthy (status o)
  && oneOf ["active"; "inactive"; "completed"] (status o)
  && maxlength 500 (description o)
  && match customerEmail o with
     | Some e => CustomerModel.matchEmail e
     | None => true
     end.

Definition assignTrackingId (o : Order) (v : string) : Order :=
  mkOrder (_id o) (customerName o) (orderDate o) (orderType o)
    (Some (setTrackingId v)) (orderTotal o) (action o) (status o)
    (description o) (customerEmail o) (customerPhone o) (shippingAddress o)
    (createdAt o) (updatedAt o).

(** The identifier the hook builds: [now] is [Date.now()] and [random] is
    the string [Math.random().toString(36)]. *)
Definition generatedTrackingId (now : Z) (random : string) : string :=
  let timestamp := JsNumber.toStringRadix 36 now in
  let random' := JsString.substr random 2 5 in
  JsString.toUpperCase ("ORD-" ++ timestamp ++ "-" ++ random').

(** [orderSchema.pre('save', ...)] *)
Definition preSave (now : Z) (random : string) (this : Order) : Order :=
  if negb (JsString.truthyOpt (trackingId this))
  then assignTrackingId this (generatedTrackingId now random)
  else this.

(** [order.save()] on a new document. The validation of the schema is
    the first of the [pre('save')] steps, ahead of the hook the schema
    registers; the insertion comes last, and the unique index on
    [trackingId] can refuse it. *)
Definition save (db : list Order) (now : Z) (random : string) (doc : Order)
  : result (Order * list Order) :=
  if negb (validate doc) then Rejected ValidationError
  else
    let doc' := preSave now random doc in
    if existsb (fun o => match trackingId o, trackingId doc' with
                         | Some a, Some b => String.eqb a b
                         | _, _ => false
                         end) db
    then Rejected DuplicateKey
    else Resolved (doc', (db ++ [doc'])%list).

(** [Order.create(input)] *)
Definition create (db : list Order) (now : Z) (random : string)
    (input : Input.t) : result (Order * list Order) :=
  save db now random (construct db now input).

End OrderModel.

(** ** Definitions the statements use *)

Module Spec.

(** The lookback of the summary, as the specification names it. *)
Inductive Lookback : Type := SevenDays | OneMonth | OneYear.

(** The timeframe names matched as written. *)
Definition lookbackExact (timeframe : option string) : Lookback :=
  match timeframe with
  | Some s =>
      if String.eqb s "month" then OneMonth
      else if String.eqb s "year" then OneYear
      else SevenDays
  | None => SevenDays
  end.

(** The timeframe names matched without regard to letter case. *)
Definition lookbackOf (timeframe : option string) : Lookback :=
  lookbackExact (option_map JsString.toLowerCase timeframe).

(** The month before month [m] of year [y]. *)
Definition previousMonth (y m : Z) : Z * Z :=
  if m =? 0 then (y - 1, 11) else (y, m - 1).

(** The time value [lookback] before [now]: seven days of 24 hours, or
    the same day of the month and time of day, in local time, of the
    month or the year before (a day the target month does not have runs
    over into the month after it). *)
Definition periodStart (tza : Z) (lookback : Lookback) (now : Z) : Z :=
  let t := JsDate.LocalTime (JsDate.fixedZone tza) now in
  let y := JsDate.YearFromTime t in
  let m := JsDate.MonthFromTime t in
  let d := JsDate.DateFromTime t in
  match lookback with
  | SevenDays => now - 7 * JsDate.msPerDay
  | OneMonth =>
      let '(y', m') := previousMonth y m in
      JsDate.UTC (JsDate.fixedZone tza) (JsDate.MakeDate (JsDate.MakeDay y' m' d)
                        (JsDate.TimeWithinDay t))
  | OneYear =>
      JsDate.UTC (JsDate.fixedZone tza) (JsDate.MakeDate (JsDate.MakeDay (y - 1) m d)
                        (JsDate.TimeWithinDay t))
  end.

(** The same in any zone: the lookback is taken on the local calendar
    and clock. *)
Definition localShift (lookback : Lookback) (t : Z) : Z :=
  let y := JsDate.YearFromTime t in
  let m := JsDate.MonthFromTime t in
  let d := JsDate.DateFromTime t in
  match lookback with
  | SevenDays => t - 7 * JsDate.msPerDay
  | OneMonth =>
      let '(y', m') := previousMonth y m in
      JsDate.MakeDate (JsDate.MakeDay y' m' d) (JsDate.TimeWithinDay t)
  | OneYear =>
      JsDate.MakeDate (JsDate.MakeDay (y - 1) m d) (JsDate.TimeWithinDay t)
  end.

Definition periodStartIn (zone : JsDate.Zone) (lookback : Lookback) (now : Z)
  : Z :=
  JsDate.UTC zone (localShift lookback (JsDate.LocalTime zone now)).

(** [f] is a time of the first day of month [m] of year [y]. *)
Definition firstOfMonth (y m f : Z) : Prop :=
  JsDate.YearFromTime f = y /\ JsDate.MonthFromTime f = m
  /\ JsDate.DateFromTime f = 1.

(** [s] is the time of day of [t] on the day that has, counted from the
    first day of month [m] of year [y], the day of the month of [t]:
    that very day of the month when the month has it, a day of the month
    after when it has not. *)
Definition sameDayOf (y m t s : Z) : Prop :=
  exists f, firstOfMonth y m f
            /\ JsDate.Day s = JsDate.Day f + (JsDate.DateFromTime t - 1)
            /\ JsDate.TimeWithinDay s = JsDate.TimeWithinDay t.

(** The local time [s] is the local time [t] moved back by the lookback:
    by seven days of 24 hours, to the month before or to the same month
    of the year before. *)
Definition lookedBack (lookback : Lookback) (t s : Z) : Prop :=
  match lookback with
  | SevenDays => s = t - 7 * JsDate.msPerDay
  | OneMonth =>
      let '(y', m') :=
        previousMonth (JsDate.YearFromTime t) (JsDate.MonthFromTime t) in
      sameDayOf y' m' t s
  | OneYear =>
      sameDayOf (JsDate.YearFromTime t - 1) (JsDate.MonthFromTime t) t s
  end.

(** A zone with daylight saving, for the examples: five hours behind
    UTC until 2024-03-10 07:00 UTC (02:00 local time), four hours behind
    after. *)
Definition easternZone : JsDate.Zone :=
  JsDate.mkZone
    (fun t => if t <? 1710054000000 then -18000000 else -14400000)
    (fun t => if t <? 1710036000000 + 3600000 then -18000000 else -14400000).

(** [lo <= t < hi] *)
Definition inWindow (lo hi t : Z) : bool := (lo <=? t) && (t <? hi).

Definition sumAbandonedCarts (db : list Customer) : Z :=
  fold_left Z.add (List.map abandonedCarts db) 0.

Definition queryOf (timeframe : option string) : QueryValue :=
  match timeframe with
  | Some s => QString s
  | None => QAbsent
  end.

(** The timeframe the handler works with: ['week'] when none is given. *)
Definition effective (timeframe : option string) : string :=
  match timeframe with
  | Some s => s
  | None => "week"
  end.

(** The metrics that carry a change: the current count, the count of the
    period before, and the change string of the response. *)
Definition changePairs (l : CustomerController.Locals) (m : Summary.Metrics)
  : list (Z * Z * option string) :=
  [ (CustomerController.allCustomers l, CustomerController.prevAllCustomers l,
     Summary.change (Summary.allCustomers m));
    (CustomerController.activeCustomers l,
     CustomerController.prevActiveCustomers l,
     Summary.change (Summary.activeCustomers m));
    (CustomerController.inactiveCustomers l,
     CustomerController.prevInactiveCustomers l,
     Summary.change (Summary.inactiveCustomers m));
    (CustomerController.newCustomers l, CustomerController.prevNewCustomers l,
     Summary.change (Summary.newCustomers m)) ].

(** A collection of [n] customers with distinct identities and emails,
    numbered from [i]: those numbered up to [recent] registered at [t1],
    the others at [t0]. ([z] is [i] as an integer.) *)
Definition sampleCustomer (recent t1 t0 : Z) (i : nat) (z : Z) : Customer :=
  mkCustomer i "Customer"
    ("c" ++ JsNumber.decimal z ++ "@example.com") "9876543210"
    0 0 (if z <=? recent then t1 else t0) "active" 0 t0 t0.

Fixpoint sampleFrom (n : nat) (recent t1 t0 : Z) (i : nat) (z : Z)
  : list Customer :=
  match n with
  | O => []
  | S n' => sampleCustomer recent t1 t0 i z
            :: sampleFrom n' recent t1 t0 (S i) (z + 1)
  end.

Definition sampleCollection (n : nat) (recent t1 t0 : Z) : list Customer :=
  sampleFrom n recent t1 t0 1%nat 1.

(** The status values [updateCustomerStatus] accepts. *)
Definition validStatus (st : option string) : bool :=
  match st with
  | Some s => String.eqb s "active" || String.eqb s "inactive"
  | None => false
  end.

(** The value of a string path after an update: the normalised value of
    the request when it is a non-empty string, the previous one
    otherwise. *)
Definition stringField (old : string) (o : option string)
    (normalise : string -> string) : string :=
  match o with
  | Some v => if JsString.truthy v then normalise v else old
  | None => old
  end.

(** The value of the date path after an update: the value of the
    request when there is one and it is not the number 0. *)
Definition dateField (old : Z) (o : option Z) : Z :=
  match o with
  | Some v => if v =? 0 then old else v
  | None => old
  end.

(** The value of a number path after an update: the value of the
    request when there is one. *)
Definition field {A : Type} (old : A) (o : option A) : A :=
  match o with
  | Some v => v
  | None => old
  end.

(** The email after an update: the lower-cased value of the request when
    it is non-empty and differs from the current one. *)
Definition emailField (old : string) (o : option string) : string :=
  match o with
  | Some e =>
      if JsString.truthy e && negb (String.eqb e old)
      then JsString.toLowerCase e else old
  | None => old
  end.

Definition updatedFields (c : Customer) (body : Body.t) : Customer :=
  mkCustomer (_id c)
    (stringField (customerName c) (Body.customerName body) JsString.trim)
    (emailField (email c) (Body.email body))
    (stringField (phone c) (Body.phone body) JsString.trim)
    (field (ordersCount c) (Body.ordersCount body))
    (field (orderTotal c) (Body.orderTotal body))
    (dateField (customerSince c) (Body.customerSince body))
    (stringField (status c) (Body.status body) (fun s => s))
    (field (abandonedCarts c) (Body.abandonedCarts body))
    (createdAt c) (updatedAt c).

(** The document with its status replaced. *)
Definition withStatus (c : Customer) (s : string) : Customer :=
  mkCustomer (_id c) (customerName c) (email c) (phone c) (ordersCount c)
    (orderTotal c) (customerSince c) s (abandonedCarts c) (createdAt c)
    (updatedAt c).

(** [updatedAt] is refreshed when a path changed. *)
Definition stamped (orig doc : Customer) (now : Z) : Customer :=
  if CustomerModel.isModified orig doc
  then CustomerModel.withUpdatedAt doc now else doc.

Definition storedAfter (db : list Customer) (orig doc : Customer) (now : Z)
  : list Customer :=
  if CustomerModel.isModified orig doc
  then CustomerModel.replace db (CustomerModel.withUpdatedAt doc now)
  else db.

(** What the schema keeps true of a collection: identities and emails
    are unique, every document passes the validators, and emails are in
    lower case. *)
Definition wellFormed (db : list Customer) : Prop :=
  NoDup (List.map _id db)
  /\ NoDup (List.map email db)
  /\ Forall (fun c => CustomerModel.validate c = true) db
  /\ Forall (fun c => email c = JsString.toLowerCase (email c)) db.

(** The requests that write to the collection. *)
Inductive Request : Type :=
| Create (now : Z) (body : Body.t) : Request
| Update (now : Z) (id : IdParam) (body : Body.t) : Request
| PatchStatus (now : Z) (id : IdParam) (st : option string) : Request
| Delete (id : IdParam) : Request.

Definition step (db : list Customer) (r : Request) : list Customer :=
  match r with
  | Create now body => snd (CustomerController.createCustomer db now body)
  | Update now id body => snd (CustomerController.updateCustomer db now id body)
  | PatchStatus now id st =>
      snd (CustomerController.updateCustomerStatus db now id st)
  | Delete id => snd (CustomerController.deleteCustomer db id)
  end.

Definition run (db : list Customer) (rs : list Request) : list Customer :=
  fold_left step rs db.

(** The path and the direction the list endpoint sorts by. *)
Definition sortField (q : CustomerController.ListQuery.t) : string :=
  match CustomerController.ListQuery.sortBy q with
  | Some s => s
  | None => "customerSince"
  end.

Definition sortDirection (q : CustomerController.ListQuery.t) : Z :=
  match CustomerController.ListQuery.sortOrder q with
  | Some s => if String.eqb s "desc" then -1 else 1
  | None => -1
  end.

(** The documents a list request selects: those with the requested
    status, when one is given, that match the search pattern in their
    name, email or phone, when one is given. *)
Definition selected (regex : string -> option (string -> bool))
    (q : CustomerController.ListQuery.t) (c : Customer) : Prop :=
  (forall st, CustomerController.ListQuery.status q = Some st -> st <> EmptyString ->
              status c = st)
  /\ (forall pattern test,
        CustomerController.ListQuery.search q = Some pattern -> pattern <> EmptyString ->
        regex pattern = Some test ->
        test (customerName c) = true \/ test (email c) = true
        \/ test (phone c) = true).

(** The page of a list request: the sorted selection, without the
    documents of the pages before and cut at the limit. *)
Definition pageOf
    (storeSort : (Customer -> Customer -> bool) -> list Customer -> list Customer)
    (db : list Customer) (q : CustomerController.ListQuery.t)
    (filter : Customer -> bool) (pageNum limitNum : Z) : list Customer :=
  List.firstn (Z.to_nat limitNum)
    (List.skipn (Z.to_nat ((pageNum - 1) * limitNum))
       (storeSort (CustomerController.sortLeb (sortField q) (sortDirection q))
          (List.filter filter db))).

(** A sort the store may use: insertion into a sorted list. *)
Fixpoint insert (le : Customer -> Customer -> bool) (x : Customer)
    (l : list Customer) : list Customer :=
  match l with
  | [] => [x]
  | y :: r => if le x y then x :: l else y :: insert le x r
  end.

Fixpoint insertionSort (le : Customer -> Customer -> bool)
    (l : list Customer) : list Customer :=
  match l with
  | [] => []
  | x :: r => insert le x (insertionSort le r)
  end.

(** A regular-expression engine for the examples: a pattern is a literal
    substring, matched without regard to letter case; an open
    parenthesis alone is refused. *)
Fixpoint contains (p s : string) : bool :=
  JsString.startsWith p s
  || match s with
     | EmptyString => false
     | String _ r => contains p r
     end.

Definition literalRegex (pattern : string) : option (string -> bool) :=
  if String.eqb pattern "(" then None
  else Some (fun s => contains (JsString.toLowerCase pattern)
                        (JsString.toLowerCase s)).

(** Two customers and an order for the examples. *)
Definition jane : Customer :=
  mkCustomer 1 "Jane Smith" "jane.smith@example.com" "9876543210"
    0 0 1705276800000 "active" 0 1705276800000 1705276800000.

Definition john : Customer :=
  mkCustomer 2 "John Doe" "john.doe@example.com" "+1234567890"
    5 (12505 # 10) 1705276800000 "active" 2 1705276800000 1705276800000.

Definition minimalOrder : OrderModel.Input.t :=
  OrderModel.Input.mk (Some "Jane Smith") None None None (Some (250 # 1))
    None None None None None None.

End Spec.

(** * Properties *)

Module DateFacts.
Import JsDate.

Lemma msPerDay_value : msPerDay = 86400000.
Proof. reflexivity. Qed.

Lemma Day_TimeWithinDay t : MakeDate (Day t) (TimeWithinDay t) = t.
Proof.
  unfold MakeDate, Day, TimeWithinDay.
  pose proof (Z.div_mod t msPerDay) as H.
  rewrite msPerDay_value in *. lia.
Qed.

Ltac month_cases m :=
  let C := fresh "C" in
  assert (C : m = 0 \/ m = 1 \/ m = 2 \/ m = 3 \/ m = 4 \/ m = 5 \/ m = 6
              \/ m = 7 \/ m = 8 \/ m = 9 \/ m = 10 \/ m = 11) by lia;
  destruct C as [-> | [-> | [-> | [-> | [-> | [-> | [-> | [-> | [-> | [-> | [-> | ->]]]]]]]]]]].

Ltac split_ltb :=
  repeat match goal with
         | |- context [?a <? ?b] => destruct (Z.ltb_spec a b); try lia
         end.

Ltac leap_cases l :=
  let C := fresh "C" in
  assert (C : l = 0 \/ l = 1) by lia; destruct C as [-> | ->].

(** Replaces the table entries at literal arguments by their values. *)
Ltac eval_tables :=
  repeat match goal with
         | |- context [monthLength ?m ?l] =>
             let v := eval vm_compute in (monthLength m l) in
             change (monthLength m l) with v
         | |- context [monthStart ?m ?l] =>
             let v := eval vm_compute in (monthStart m l) in
             change (monthStart m l) with v
         | H : context [monthLength ?m ?l] |- _ =>
             let v := eval vm_compute in (monthLength m l) in
             change (monthLength m l) with v in H
         | H : context [monthStart ?m ?l] |- _ =>
             let v := eval vm_compute in (monthStart m l) in
             change (monthStart m l) with v in H
         end.

Lemma monthOfDay_range d l : 0 <= monthOfDay d l <= 11.
Proof. unfold monthOfDay. split_ltb. Qed.

Lemma monthStart_span m l d :
  0 <= m <= 11 -> 0 <= l <= 1 -> 1 <= d <= monthLength m l ->
  0 <= monthStart m l + d - 1 < 365 + l.
Proof.
  intros Hm Hl Hd. month_cases m; leap_cases l; eval_tables; lia.
Qed.

Lemma monthOfDay_monthStart m l d :
  0 <= m <= 11 -> 0 <= l <= 1 -> 1 <= d <= monthLength m l ->
  monthOfDay (monthStart m l + d - 1) l = m.
Proof.
  intros Hm Hl Hd. unfold monthOfDay.
  month_cases m; leap_cases l; eval_tables; split_ltb.
Qed.

Lemma monthOfDay_length d l :
  0 <= l <= 1 -> 0 <= d < 365 + l ->
  1 <= d - monthStart (monthOfDay d l) l + 1 <= monthLength (monthOfDay d l) l.
Proof.
  intros Hl Hd. unfold monthOfDay. leap_cases l; split_ltb; eval_tables; lia.
Qed.

Lemma MonthFromTime_range t : 0 <= MonthFromTime t <= 11.
Proof. apply monthOfDay_range. Qed.

Lemma YearFromTime_spec t :
  TimeFromYear (YearFromTime t) <= t < TimeFromYear (YearFromTime t + 1).
Proof.
  unfold YearFromTime, TimeFromYear, DayFromYear, Day.
  rewrite msPerDay_value.
  repeat match goal with
         | |- context [?a <=? ?b] => destruct (Z.leb_spec a b)
         end; Z.div_mod_to_equations; lia.
Qed.

Lemma DayFromYear_step y : DayFromYear (y + 1) = DayFromYear y + DaysInYear y.
Proof.
  unfold DayFromYear, DaysInYear.
  repeat match goal with
         | |- context [?a =? ?b] => destruct (Z.eqb_spec a b)
         end; simpl negb; cbv iota; Z.div_mod_to_equations; lia.
Qed.

Lemma DayFromYear_mono y y' : y <= y' -> DayFromYear y <= DayFromYear y'.
Proof.
  unfold DayFromYear. intros H. Z.div_mod_to_equations. lia.
Qed.

Lemma YearFromTime_unique t y :
  TimeFromYear y <= t < TimeFromYear (y + 1) -> YearFromTime t = y.
Proof.
  intros H. pose proof (YearFromTime_spec t) as S.
  unfold TimeFromYear in *. rewrite msPerDay_value in *.
  destruct (Z.lt_trichotomy (YearFromTime t) y) as [L | [E | G]]; [| exact E |].
  - pose proof (DayFromYear_mono (YearFromTime t + 1) y ltac:(lia)). lia.
  - pose proof (DayFromYear_mono (y + 1) (YearFromTime t) ltac:(lia)). lia.
Qed.

Lemma MakeDay_shift t k :
  MakeDay (YearFromTime t) (MonthFromTime t) (DateFromTime t + k) = Day t + k.
Proof.
  pose proof (MonthFromTime_range t) as R.
  unfold MakeDay, DateFromTime, DayWithinYear, InLeapYear.
  rewrite (Z.div_small (MonthFromTime t) 12) by lia.
  rewrite (Z.mod_small (MonthFromTime t) 12) by lia.
  rewrite Z.add_0_r. lia.
Qed.

Lemma setDate_local zone d k :
  setDate zone d (getDate zone d + k)
  = UTC zone (LocalTime zone d + k * msPerDay).
Proof.
  unfold setDate, getDate. rewrite MakeDay_shift. f_equal.
  pose proof (Day_TimeWithinDay (LocalTime zone d)) as H.
  unfold MakeDate in *. lia.
Qed.

Lemma setDate_shift tza d k :
  setDate (fixedZone tza) d (getDate (fixedZone tza) d + k) = d + k * msPerDay.
Proof.
  rewrite setDate_local. unfold UTC, LocalTime. cbn [utcOffset localOffset fixedZone].
  lia.
Qed.

Lemma Day_MakeDate day tw :
  0 <= tw < msPerDay -> Day (MakeDate day tw) = day /\ TimeWithinDay (MakeDate day tw) = tw.
Proof.
  intros H. unfold Day, TimeWithinDay, MakeDate.
  rewrite msPerDay_value in *.
  split; Z.div_mod_to_equations; lia.
Qed.

Lemma leapDays_cases y :
  (leapDays y = 0 /\ DaysInYear y = 365) \/ (leapDays y = 1 /\ DaysInYear y = 366).
Proof.
  unfold leapDays, DaysInYear.
  destruct (y mod 4 =? 0), (y mod 100 =? 0), (y mod 400 =? 0); simpl; auto.
Qed.

Lemma DayWithinYear_range t : 0 <= DayWithinYear t < DaysInYear (YearFromTime t).
Proof.
  pose proof (YearFromTime_spec t) as S.
  unfold DayWithinYear, TimeFromYear, Day in *.
  rewrite DayFromYear_step in S.
  rewrite msPerDay_value in *.
  Z.div_mod_to_equations. lia.
Qed.

Lemma leapDays_range y : 0 <= leapDays y <= 1.
Proof. destruct (leapDays_cases y) as [[L _] | [L _]]; lia. Qed.

Lemma DaysInYear_leapDays y : DaysInYear y = 365 + leapDays y.
Proof. destruct (leapDays_cases y) as [[L Y] | [L Y]]; lia. Qed.

(** The calendar fields of a time value built from in-range fields. *)
Lemma MakeDay_fields y m d tw :
  0 <= m <= 11 -> 1 <= d <= DaysInMonth y m -> 0 <= tw < msPerDay ->
  let t := MakeDate (MakeDay y m d) tw in
  YearFromTime t = y /\ MonthFromTime t = m /\ DateFromTime t = d
  /\ TimeWithinDay t = tw.
Proof.
  intros Hm Hd Htw t.
  destruct (Day_MakeDate (MakeDay y m d) tw Htw) as [HD HT].
  fold t in HD, HT.
  pose proof (leapDays_range y) as Hl.
  pose proof (monthStart_span m (leapDays y) d Hm Hl Hd) as Hs.
  assert (HM : MakeDay y m d = DayFromYear y + (monthStart m (leapDays y) + d - 1)).
  { unfold MakeDay. rewrite Z.div_small, Z.mod_small by lia.
    rewrite Z.add_0_r. lia. }
  assert (HY : YearFromTime t = y).
  { apply YearFromTime_unique. unfold TimeFromYear.
    rewrite DayFromYear_step, DaysInYear_leapDays.
    generalize dependent (monthStart m (leapDays y) + d - 1). intros w Hw HM.
    unfold Day in HD. rewrite msPerDay_value in *.
    clear - HD HM Hw. Z.div_mod_to_equations. lia. }
  assert (HW : DayWithinYear t = monthStart m (leapDays y) + d - 1).
  { unfold DayWithinYear. rewrite HY, HD, HM. lia. }
  assert (HMo : MonthFromTime t = m).
  { unfold MonthFromTime, InLeapYear. rewrite HY, HW.
    apply monthOfDay_monthStart; assumption. }
  repeat split; auto.
  unfold DateFromTime, InLeapYear. rewrite HMo, HY, HW. lia.
Qed.

Lemma monthLength_pos m l : 0 <= m <= 11 -> 0 <= l <= 1 -> 1 <= monthLength m l.
Proof. intros Hm Hl. month_cases m; leap_cases l; eval_tables; lia. Qed.

(** The day that has the day of the month [d], counted from the first of
    month [m] of year [y], at the time of day [tw]. *)
Lemma MakeDay_from_first y m d tw :
  0 <= m <= 11 -> 0 <= tw < msPerDay ->
  let s := MakeDate (MakeDay y m d) tw in
  exists f,
    (YearFromTime f = y /\ MonthFromTime f = m /\ DateFromTime f = 1)
    /\ Day s = Day f + (d - 1) /\ TimeWithinDay s = tw.
Proof.
  intros Hm Htw s.
  assert (H0 : 0 <= 0 < msPerDay) by (rewrite msPerDay_value; lia).
  pose proof (monthLength_pos m (leapDays y) Hm (leapDays_range y)) as Hp.
  destruct (MakeDay_fields y m 1 0 Hm ltac:(unfold DaysInMonth; lia) H0)
    as (Fy & Fm & Fd & _).
  destruct (Day_MakeDate (MakeDay y m 1) 0 H0) as [Df _].
  destruct (Day_MakeDate (MakeDay y m d) tw Htw) as [Ds Ts].
  exists (MakeDate (MakeDay y m 1) 0).
  split; [now split |]. split; [| exact Ts].
  unfold s. rewrite Ds, Df. unfold MakeDay. lia.
Qed.

Lemma DateFromTime_range t :
  1 <= DateFromTime t <= DaysInMonth (YearFromTime t) (MonthFromTime t).
Proof.
  pose proof (DayWithinYear_range t) as R.
  rewrite DaysInYear_leapDays in R.
  unfold DateFromTime, DaysInMonth, MonthFromTime, InLeapYear.
  apply monthOfDay_length; [apply leapDays_range | exact R].
Qed.

End DateFacts.

Module StringFacts.
Import JsString.

Lemma lowerChar_idem c : lowerChar (lowerChar c) = lowerChar c.
Proof.
  destruct c as [[] [] [] [] [] [] [] []]; vm_compute; reflexivity.
Qed.

Lemma toLowerCase_idem s : toLowerCase (toLowerCase s) = toLowerCase s.
Proof.
  unfold toLowerCase. induction s as [| c s IH]; [reflexivity |].
  cbn. now rewrite lowerChar_idem, IH.
Qed.

Lemma upperChar_not_lower c : isLower (upperChar c) = false.
Proof.
  destruct c as [[] [] [] [] [] [] [] []]; vm_compute; reflexivity.
Qed.

Lemma toUpperCase_no_lower s :
  allChars (fun c => negb (isLower c)) (toUpperCase s) = true.
Proof.
  unfold toUpperCase. induction s as [| c s IH]; [reflexivity |].
  cbn. now rewrite upperChar_not_lower, IH.
Qed.

Lemma truthy_true s : truthy s = true <-> s <> EmptyString.
Proof. destruct s; cbn; split; congruence. Qed.

End StringFacts.

Module StoreFacts.
Import CustomerModel.

Lemma find_some_in (p : Customer -> bool) db c :
  In c db -> p c = true -> exists c', List.find p db = Some c'.
Proof.
  intros HIn Hp. destruct (List.find p db) as [c' |] eqn:E; [eauto |].
  now rewrite (find_none _ _ E c HIn) in Hp.
Qed.

Lemma findById_id db id c : documentWithId db id = Some c -> In c db /\ _id c = id.
Proof.
  intros H. apply find_some in H. destruct H as [HIn E].
  now apply Nat.eqb_eq in E.
Qed.

Lemma findById_replace db id orig doc :
  documentWithId db id = Some orig -> _id doc = id ->
  documentWithId (replace db doc) id = Some doc.
Proof.
  unfold documentWithId, replace. intros H E. subst id.
  induction db as [| c db IH]; [discriminate |].
  cbn in *. destruct (Nat.eqb (_id c) (_id doc)) eqn:Ec.
  - now rewrite Nat.eqb_refl.
  - rewrite Ec. auto.
Qed.

Lemma isModified_refl c : isModified c c = false.
Proof.
  unfold isModified.
  now rewrite !String.eqb_refl, !Z.eqb_refl, Qeq_bool_refl.
Qed.

End StoreFacts.

Module WriteFacts.
Import CustomerController CustomerModel StoreFacts.

Lemma createCustomer_known_email db now body e c :
  In c db -> Body.email body = Some e -> email c = setEmail e ->
  let r := createCustomer db now body in
  statusCode (fst r) = 400 /\ success (fst r) = false /\ snd r = db
  /\ (JsString.truthyOpt (Body.customerName body) = true ->
      JsString.truthyOpt (Body.phone body) = true -> e <> EmptyString ->
      message (fst r) = Some "Customer with this email already exists").
Proof.
  intros HIn He Hc. unfold createCustomer. rewrite He. cbn [JsString.truthyOpt].
  destruct (JsString.truthyOpt (Body.customerName body)) eqn:Hn;
    [| cbn; split; [| split; [| split]]; try reflexivity; discriminate].
  destruct (JsString.truthy e) eqn:Ht;
    [| cbn; split; [| split; [| split]]; try reflexivity;
       intros _ _ Hne; apply StringFacts.truthy_true in Hne; congruence].
  destruct (JsString.truthyOpt (Body.phone body)) eqn:Hp;
    [| cbn; split; [| split; [| split]]; try reflexivity; discriminate].
  cbn [negb orb].
  replace (orString (Some e) EmptyString) with e by (cbn; now rewrite Ht).
  destruct (find_some_in (fun c0 => String.eqb (email c0) (setEmail e)) db c HIn)
    as [c' Hf]; [now rewrite Hc, String.eqb_refl |].
  unfold findOneByEmail. rewrite Hf. cbn.
  split; [| split; [| split]]; reflexivity.
Qed.

(** C6 (as amended). For every creation request that carries a name, an
  email and a phone, all non-empty, and whose email in lower case (the
  setter of the schema, which the lookup applies) is the email of a
  customer of the collection, the response is the 400 of the email
  conflict and the collection is unchanged. *)
Theorem createCustomer_duplicate_email db now body n e p c :
  Body.customerName body = Some n -> n <> EmptyString ->
  Body.email body = Some e -> e <> EmptyString ->
  Body.phone body = Some p -> p <> EmptyString ->
  In c db -> email c = JsString.toLowerCase e ->
  createCustomer db now body
  = (failure 400 "Customer with this email already exists", db).
Proof.
  intros Hn Tn He Te Hp Tp HIn Hc.
  apply StringFacts.truthy_true in Tn, Te, Tp.
  unfold createCustomer. rewrite Hn, He, Hp.
  cbn [JsString.truthyOpt orString]. rewrite Tn, Te, Tp. cbn [negb orb].
  destruct (find_some_in (fun c0 => String.eqb (email c0) (setEmail e)) db c HIn)
    as [c' Hf]; [now rewrite Hc, String.eqb_refl |].
  unfold findOneByEmail. now rewrite Hf.
Qed.

Lemma createCustomer_duplicate_email_witness :
  createCustomer [Spec.jane] 1710504000000
    (Body.mk (Some "Janet") (Some "Jane.Smith@example.com") (Some "555")
       None None None None None)
  = (failure 400 "Customer with this email already exists", [Spec.jane]).
Proof.
  apply (createCustomer_duplicate_email [Spec.jane] 1710504000000 _
           "Janet" "Jane.Smith@example.com" "555" Spec.jane);
    try reflexivity; try discriminate.
  left; reflexivity.
Defined.

Lemma createCustomer_duplicate_without_name :
  let body := Body.mk None (Some "jane.smith@example.com") (Some "555")
                None None None None None in
  let r := createCustomer [Spec.jane] 1710504000000 body in
  Body.email body = Some (email Spec.jane)
  /\ fst r = failure 400 "Customer name, email, and phone are required"
  /\ message (fst r) <> Some "Customer with this email already exists"
  /\ snd r = [Spec.jane].
Proof.
  cbv zeta. split; [reflexivity |]. split; [reflexivity |].
  split; [vm_compute; discriminate | reflexivity].
Qed.

Lemma applyBody_fields customer body :
  applyBody customer body = Spec.updatedFields customer body.
Proof.
  destruct body as [n e p oc ot cs st ac].
  destruct customer as [i0 n0 e0 p0 oc0 ot0 cs0 st0 ac0 ca0 ua0].
  unfold applyBody, Spec.updatedFields, emailChanges, Spec.emailField,
    Spec.stringField, Spec.field, Spec.dateField, whenTruthy, whenDefined,
    whenNonZero, orString.
  cbn [Body.customerName Body.email Body.phone Body.ordersCount
       Body.orderTotal Body.customerSince Body.status Body.abandonedCarts
       email].
  destruct e as [e |];
    [destruct (JsString.truthy e); cbn [andb];
     [destruct (String.eqb e _); cbn [negb] |] |];
    (destruct n as [n |]; [destruct (JsString.truthy n) |]);
    (destruct p as [p |]; [destruct (JsString.truthy p) |]);
    destruct oc, ot; (destruct cs as [cs |]; [destruct (cs =? 0) |]);
    (destruct st as [st |]; [destruct (JsString.truthy st) |]);
    destruct ac; reflexivity.
Qed.

Lemma save_outcome db now orig doc :
  validate doc = true ->
  (negb (String.eqb (email orig) (email doc))
   && existsb (fun c => negb (Nat.eqb (_id c) (_id doc))
                        && String.eqb (email c) (email doc)) db) = false ->
  save db now orig doc
  = Resolved (Spec.stamped orig doc now, Spec.storedAfter db orig doc now).
Proof.
  intros Hv Hd. unfold save, Spec.stamped, Spec.storedAfter.
  rewrite Hv. cbn [negb].
  destruct (isModified orig doc); cbn [negb]; [| reflexivity].
  now rewrite Hd.
Qed.




Lemma updateCustomer_zero_date_ignored :
  let body := Body.mk None None None None None (Some 0) None None in
  let r := updateCustomer [Spec.jane] 1710504000000 (ObjectId 1) body in
  fst r = mkResponse 200 true (Some "Customer updated successfully")
            (CustomerData Spec.jane)
  /\ snd r = [Spec.jane]
  /\ customerSince Spec.jane <> 0.
Proof.
  cbv zeta. split; [vm_compute; reflexivity |].
  split; [vm_compute; reflexivity | discriminate].
Qed.


Lemma validStatus_cases st :
  Spec.validStatus st = true -> st = Some "active" \/ st = Some "inactive".
Proof.
  destruct st as [s |]; [| discriminate]. cbn. intros H.
  apply orb_true_iff in H. destruct H as [H | H]; apply String.eqb_eq in H;
    subst; auto.
Qed.

Lemma status_guard st :
  negb (JsString.truthyOpt st)
  || negb (existsb (String.eqb (orString st EmptyString)) ["active"; "inactive"])
  = negb (Spec.validStatus st).
Proof.
  destruct st as [s |]; [| reflexivity].
  destruct s as [| c s]; [reflexivity |].
  cbn [JsString.truthyOpt JsString.truthy negb orb orString existsb
         Spec.validStatus].
  rewrite orb_false_r.
  now rewrite (String.eqb_sym _ "active"), (String.eqb_sym _ "inactive").
Qed.

Lemma assignStatus_withStatus c s : assignStatus c s = Spec.withStatus c s.
Proof. reflexivity. Qed.

Lemma validate_withStatus c s :
  validate c = true -> Spec.validStatus (Some s) = true ->
  validate (Spec.withStatus c s) = true.
Proof.
  intros Hv Hs. apply validStatus_cases in Hs.
  unfold validate in *. cbn [customerName email phone ordersCount orderTotal
    status abandonedCarts Spec.withStatus].
  repeat (apply andb_true_iff in Hv; destruct Hv as [Hv ?]).
  repeat (apply andb_true_iff; split); try assumption;
    destruct Hs as [Hs | Hs]; injection Hs as ->; reflexivity.
Qed.

Lemma isModified_withStatus c s :
  isModified c (Spec.withStatus c s) = negb (String.eqb (status c) s).
Proof.
  unfold isModified. cbn [customerName email phone ordersCount orderTotal
    customerSince status abandonedCarts Spec.withStatus].
  rewrite !String.eqb_refl, !Z.eqb_refl, Qeq_bool_refl.
  cbn [andb]. now rewrite andb_true_r.
Qed.

Lemma updateCustomerStatus_invalid db now id st :
  Spec.validStatus st = false ->
  updateCustomerStatus db now (ObjectId id) st
  = (failure 400 "Valid status (active or inactive) is required", db).
Proof.
  intros H. unfold updateCustomerStatus. cbn [findById].
  now rewrite status_guard, H.
Qed.

Lemma updateCustomerStatus_valid db now id s customer :
  Spec.validStatus (Some s) = true ->
  documentWithId db id = Some customer -> validate customer = true ->
  updateCustomerStatus db now (ObjectId id) (Some s)
  = (mkResponse 200 true (Some "Customer status updated successfully")
       (CustomerData (Spec.stamped customer (Spec.withStatus customer s) now)),
     Spec.storedAfter db customer (Spec.withStatus customer s) now).
Proof.
  intros Hs Hf Hv. unfold updateCustomerStatus. cbn [findById findByIdAndDelete].
  rewrite status_guard, Hs, Hf. cbn [negb].
  replace (orString (Some s) EmptyString) with s
    by (destruct s; [discriminate | reflexivity]).
  rewrite assignStatus_withStatus, save_outcome; [reflexivity | |].
  - now apply validate_withStatus.
  - cbn [email Spec.withStatus]. now rewrite String.eqb_refl.
Qed.




End WriteFacts.

Module SummaryFacts.
Import CustomerController CustomerModel DateFacts.

Lemma MakeDay_previousMonth y m d :
  0 <= m <= 11 ->
  JsDate.MakeDay y (m - 1) d
  = let '(y', m') := Spec.previousMonth y m in JsDate.MakeDay y' m' d.
Proof.
  intros Hm. unfold Spec.previousMonth.
  destruct (Z.eqb_spec m 0) as [-> | Hn]; [| reflexivity].
  unfold JsDate.MakeDay.
  change ((0 - 1) / 12) with (-1). change ((0 - 1) mod 12) with 11.
  change (11 / 12) with 0. change (11 mod 12) with 11.
  now replace (y + -1) with (y - 1 + 0) by lia.
Qed.

Lemma startDateOf_periodStartIn zone today tf :
  startDateOf zone today tf
  = Spec.periodStartIn zone (Spec.lookbackOf (Some tf)) today.
Proof.
  unfold Spec.periodStartIn, Spec.localShift, Spec.lookbackOf, Spec.lookbackExact,
    startDateOf.
  cbn [option_map].
  replace (JsDate.getDate zone today - 7)
    with (JsDate.getDate zone today + (-7)) by lia.
  rewrite setDate_local.
  replace (JsDate.LocalTime zone today + -7 * JsDate.msPerDay)
    with (JsDate.LocalTime zone today - 7 * JsDate.msPerDay) by lia.
  destruct (String.eqb_spec (JsString.toLowerCase tf) "week") as [-> | W];
    [reflexivity |].
  destruct (String.eqb (JsString.toLowerCase tf) "month").
  - unfold JsDate.setMonth, JsDate.getMonth.
    rewrite MakeDay_previousMonth by apply MonthFromTime_range.
    destruct (Spec.previousMonth _ _). reflexivity.
  - destruct (String.eqb (JsString.toLowerCase tf) "year"); reflexivity.
Qed.

Lemma periodStartIn_fixed tza lookback now :
  Spec.periodStartIn (JsDate.fixedZone tza) lookback now
  = Spec.periodStart tza lookback now.
Proof.
  unfold Spec.periodStartIn, Spec.periodStart, Spec.localShift.
  destruct lookback.
  - unfold JsDate.UTC, JsDate.LocalTime.
    cbn [JsDate.utcOffset JsDate.localOffset JsDate.fixedZone]. lia.
  - now destruct (Spec.previousMonth _ _).
  - reflexivity.
Qed.

Lemma startDate_lookback tza today tf :
  startDateOf (JsDate.fixedZone tza) today tf
  = Spec.periodStart tza (Spec.lookbackOf (Some tf)) today.
Proof. now rewrite startDateOf_periodStartIn, periodStartIn_fixed. Qed.

Lemma localShift_lookedBack lookback t :
  Spec.lookedBack lookback t (Spec.localShift lookback t).
Proof.
  assert (Htw : 0 <= JsDate.TimeWithinDay t < JsDate.msPerDay).
  { apply Z.mod_pos_bound. rewrite msPerDay_value. lia. }
  pose proof (MonthFromTime_range t) as Rm.
  destruct lookback; unfold Spec.lookedBack, Spec.localShift.
  - reflexivity.
  - destruct (Spec.previousMonth _ _) as [y' m'] eqn:E.
    assert (Hm' : 0 <= m' <= 11).
    { unfold Spec.previousMonth in E.
      destruct (Z.eqb_spec (JsDate.MonthFromTime t) 0); inversion E; lia. }
    exact (MakeDay_from_first y' m' (JsDate.DateFromTime t)
             (JsDate.TimeWithinDay t) Hm' Htw).
  - exact (MakeDay_from_first (JsDate.YearFromTime t - 1)
             (JsDate.MonthFromTime t) (JsDate.DateFromTime t)
             (JsDate.TimeWithinDay t) Rm Htw).
Qed.

Lemma inWindow_spec lo hi t : Spec.inWindow lo hi t = true <-> lo <= t < hi.
Proof. unfold Spec.inWindow. rewrite andb_true_iff, Z.leb_le, Z.ltb_lt. tauto. Qed.

Lemma periodStart_month_fields tza now y' m' :
  let t := JsDate.LocalTime (JsDate.fixedZone tza) now in
  let s := JsDate.LocalTime (JsDate.fixedZone tza)
             (Spec.periodStart tza Spec.OneMonth now) in
  Spec.previousMonth (JsDate.YearFromTime t) (JsDate.MonthFromTime t) = (y', m') ->
  JsDate.DateFromTime t <= JsDate.DaysInMonth y' m' ->
  JsDate.YearFromTime s = y' /\ JsDate.MonthFromTime s = m'
  /\ JsDate.DateFromTime s = JsDate.DateFromTime t
  /\ JsDate.TimeWithinDay s = JsDate.TimeWithinDay t.
Proof.
  intros t s E Hd.
  pose proof (MonthFromTime_range t) as Rm.
  pose proof (DateFromTime_range t) as Rd.
  assert (Hm' : 0 <= m' <= 11).
  { unfold Spec.previousMonth in E.
    destruct (Z.eqb_spec (JsDate.MonthFromTime t) 0); inversion E; lia. }
  assert (Htw : 0 <= JsDate.TimeWithinDay t < JsDate.msPerDay).
  { apply Z.mod_pos_bound. rewrite msPerDay_value. lia. }
  pose proof (MakeDay_fields y' m' (JsDate.DateFromTime t)
                (JsDate.TimeWithinDay t) Hm' ltac:(lia) Htw) as F.
  cbv zeta in F.
  assert (Hs : s = JsDate.MakeDate (JsDate.MakeDay y' m' (JsDate.DateFromTime t))
                     (JsDate.TimeWithinDay t)).
  { unfold s, Spec.periodStart. fold t. rewrite E.
    unfold JsDate.LocalTime, JsDate.UTC.
    cbn [JsDate.utcOffset JsDate.localOffset JsDate.fixedZone]. lia. }
  rewrite Hs. exact F.
Qed.

Lemma fold_sum (f : Customer -> Z) db a :
  fold_left Z.add (List.map f db) a = a + fold_right (fun c acc => f c + acc) 0 db.
Proof.
  revert a. induction db as [| c db IH]; intros a; cbn; [lia |].
  rewrite IH. lia.
Qed.

Lemma abandonedCartsValue_sum db :
  abandonedCartsValue (aggregateAbandonedCarts db) = Spec.sumAbandonedCarts db.
Proof.
  unfold Spec.sumAbandonedCarts. rewrite fold_sum.
  destruct db as [| c db]; [reflexivity |].
  unfold aggregateAbandonedCarts, abandonedCartsValue.
  destruct (Z.eqb_spec (fold_right (fun c0 acc => abandonedCarts c0 + acc) 0 (c :: db)) 0);
    lia.
Qed.

Lemma countDocuments_split (p a b : Customer -> bool) db :
  Forall (fun c => xorb (a c) (b c) = true) db ->
  countDocuments db p
  = countDocuments db (fun c => a c && p c) + countDocuments db (fun c => b c && p c).
Proof.
  unfold countDocuments. induction 1 as [| c db Hc _ IH]; [reflexivity |].
  cbn [List.filter].
  destruct (a c), (b c); try discriminate; cbn [andb];
    destruct (p c); cbn [List.length]; lia.
Qed.

Lemma countDocuments_ext (p q : Customer -> bool) db :
  (forall c, p c = q c) -> countDocuments db p = countDocuments db q.
Proof.
  intros H. unfold countDocuments. f_equal. f_equal.
  induction db as [| c db IH]; [reflexivity |]. cbn. now rewrite H, IH.
Qed.

Lemma status_exclusive db :
  Forall (fun c => status c = "active" \/ status c = "inactive") db ->
  Forall (fun c => xorb (String.eqb (status c) "active")
                        (String.eqb (status c) "inactive") = true) db.
Proof.
  apply Forall_impl. intros c [H | H]; rewrite H; reflexivity.
Qed.

Lemma previous_period_lemma tza db today tf :
  let l := summaryLocals (JsDate.fixedZone tza) db today tf in
  startDate l = Spec.periodStart tza (Spec.lookbackOf (Some tf)) today
  /\ periodDays l = (today - startDate l) / JsDate.msPerDay
  /\ previousStartDate l = startDate l - periodDays l * JsDate.msPerDay.
Proof.
  cbv zeta. unfold summaryLocals.
  cbn [startDate periodDays previousStartDate].
  set (s := startDateOf (JsDate.fixedZone tza) today tf).
  set (n := (today - s) / (1000 * 60 * 60 * 24)).
  split; [apply startDate_lookback |].
  split; [reflexivity |].
  replace (JsDate.getDate (JsDate.fixedZone tza) s - n)
    with (JsDate.getDate (JsDate.fixedZone tza) s + (- n)) by lia.
  rewrite setDate_shift. lia.
Qed.

Lemma prevNewCustomers_window zone db today tf :
  let l := summaryLocals zone db today tf in
  prevNewCustomers l
  = Z.of_nat (List.length
                (List.filter
                   (fun c => Spec.inWindow (previousStartDate l) (startDate l)
                               (customerSince c)) db)).
Proof.
  cbv zeta. unfold summaryLocals.
  cbn [startDate previousStartDate prevNewCustomers].
  set (s := startDateOf zone today tf).
  set (p := JsDate.setDate zone s _).
  clearbody p s. unfold countDocuments, Spec.inWindow. reflexivity.
Qed.

Lemma previous_period_local zone db today tf :
  let l := summaryLocals zone db today tf in
  periodDays l = (today - startDate l) / JsDate.msPerDay
  /\ previousStartDate l
     = JsDate.UTC zone (JsDate.LocalTime zone (startDate l)
                        - periodDays l * JsDate.msPerDay).
Proof.
  cbv zeta. unfold summaryLocals.
  cbn [startDate periodDays previousStartDate].
  set (s := startDateOf zone today tf).
  set (n := (today - s) / (1000 * 60 * 60 * 24)).
  split; [reflexivity |].
  replace (JsDate.getDate zone s - n) with (JsDate.getDate zone s + (- n)) by lia.
  rewrite setDate_local. f_equal. lia.
Qed.

(** C3 (as amended). For every clock value, timeframe and time zone:
  [startDate] is the local time of the clock moved back by the lookback
  on the local calendar (seven days, or the same time of day in the
  month before or in the same month of the year before, on the day
  counted as the clock's day of the month from the first of that month);
  [periodDays] is the floor of (now - startDate) / 24 h;
  [previousStartDate] is [startDate] moved back [periodDays] days on the
  local calendar; and [prevNewCustomers] counts exactly the customers
  with [customerSince] in the half-open window
  [previousStartDate, startDate). Where local time is at a fixed offset
  from UTC the moves are multiples of 24 h: [previousStartDate] is
  [startDate] minus [periodDays] times 24 h, and the seven days are
  seven times 24 h. *)
Theorem previous_period_window zone db today tf :
  let l := summaryLocals zone db today tf in
  (exists s, startDate l = JsDate.UTC zone s
             /\ Spec.lookedBack (Spec.lookbackOf (Some tf))
                  (JsDate.LocalTime zone today) s)
  /\ periodDays l = (today - startDate l) / JsDate.msPerDay
  /\ previousStartDate l
     = JsDate.UTC zone (JsDate.LocalTime zone (startDate l)
                        - periodDays l * JsDate.msPerDay)
  /\ (forall tza, zone = JsDate.fixedZone tza ->
      previousStartDate l = startDate l - periodDays l * JsDate.msPerDay
      /\ (Spec.lookbackOf (Some tf) = Spec.SevenDays ->
          startDate l = today - 7 * JsDate.msPerDay))
  /\ prevNewCustomers l
     = Z.of_nat (List.length
                   (List.filter
                      (fun c => Spec.inWindow (previousStartDate l) (startDate l)
                                  (customerSince c)) db)).
Proof.
  intros l.
  destruct (previous_period_local zone db today tf) as (B & C).
  fold l in B, C.
  assert (A : startDate l
              = Spec.periodStartIn zone (Spec.lookbackOf (Some tf)) today)
    by apply startDateOf_periodStartIn.
  split.
  { exists (Spec.localShift (Spec.lookbackOf (Some tf))
              (JsDate.LocalTime zone today)).
    split; [exact A | apply localShift_lookedBack]. }
  split; [exact B |]. split; [exact C |].
  split; [| apply prevNewCustomers_window].
  intros tza ->. split.
  - rewrite C. unfold JsDate.UTC, JsDate.LocalTime.
    cbn [JsDate.utcOffset JsDate.localOffset JsDate.fixedZone]. lia.
  - intros W. rewrite A, W. unfold Spec.periodStartIn, Spec.localShift.
    unfold JsDate.UTC, JsDate.LocalTime.
    cbn [JsDate.utcOffset JsDate.localOffset JsDate.fixedZone]. lia.
Qed.

Lemma week_across_daylight_saving :
  let today := 1710244800000 in
  let l := summaryLocals Spec.easternZone [] today "week" in
  startDate l = today - 7 * JsDate.msPerDay + 3600000
  /\ periodDays l = 6
  /\ previousStartDate l = startDate l - 6 * JsDate.msPerDay.
Proof. vm_compute. split; [reflexivity |]. split; reflexivity. Qed.

Lemma previous_period_across_daylight_saving :
  let today := 1713196800000 in
  let since := today - 62 * JsDate.msPerDay in
  let db := [Spec.sampleCustomer 1 since since 1 1] in
  let l := summaryLocals Spec.easternZone db today "month" in
  startDate l = today - 31 * JsDate.msPerDay
  /\ periodDays l = 31
  /\ previousStartDate l
     = startDate l - periodDays l * JsDate.msPerDay + 3600000
  /\ Spec.inWindow (startDate l - periodDays l * JsDate.msPerDay) (startDate l)
       since = true
  /\ prevNewCustomers l = 0.
Proof.
  vm_compute. split; [reflexivity |]. split; [reflexivity |].
  split; [reflexivity |]. split; reflexivity.
Qed.




(** C10. Over a collection in which every status is "active" or
  "inactive", [allCustomers] is [activeCustomers] plus
  [inactiveCustomers], and [prevAllCustomers] is [prevActiveCustomers]
  plus [prevInactiveCustomers]. *)
Theorem counts_by_status zone db today tf :
  Forall (fun c => status c = "active" \/ status c = "inactive") db ->
  let l := summaryLocals zone db today tf in
  let m := summaryMetrics l in
  allCustomers l = activeCustomers l + inactiveCustomers l
  /\ prevAllCustomers l = prevActiveCustomers l + prevInactiveCustomers l
  /\ Summary.value (Summary.allCustomers m)
     = Summary.value (Summary.activeCustomers m)
       + Summary.value (Summary.inactiveCustomers m).
Proof.
  intros H l m. apply status_exclusive in H.
  assert (A : allCustomers l = activeCustomers l + inactiveCustomers l).
  { unfold l, summaryLocals. cbn [allCustomers activeCustomers inactiveCustomers].
    rewrite (countDocuments_split (fun _ => true) _ _ db H).
    f_equal; apply countDocuments_ext; intros c; apply andb_true_r. }
  split; [exact A |]. split; [| exact A].
  unfold l, summaryLocals.
  cbn [prevAllCustomers prevActiveCustomers prevInactiveCustomers].
  apply (countDocuments_split _ _ _ db H).
Qed.

Lemma counts_by_status_witness :
  let db := Spec.sampleCollection 3 1 1000 0 in
  let l := summaryLocals (JsDate.fixedZone 0) db 5000 "week" in
  allCustomers l = activeCustomers l + inactiveCustomers l
  /\ prevAllCustomers l = prevActiveCustomers l + prevInactiveCustomers l
  /\ Summary.value (Summary.allCustomers (summaryMetrics l))
     = Summary.value (Summary.activeCustomers (summaryMetrics l))
       + Summary.value (Summary.inactiveCustomers (summaryMetrics l)).
Proof.
  apply (counts_by_status (JsDate.fixedZone 0) (Spec.sampleCollection 3 1 1000 0) 5000 "week").
  repeat constructor.
Defined.

Lemma locals_changes zone db today tf :
  let l := summaryLocals zone db today tf in
  allCustomersChange l = calculateChange (allCustomers l) (prevAllCustomers l)
  /\ activeCustomersChange l
     = calculateChange (activeCustomers l) (prevActiveCustomers l)
  /\ inactiveCustomersChange l
     = calculateChange (inactiveCustomers l) (prevInactiveCustomers l)
  /\ newCustomersChange l = calculateChange (newCustomers l) (prevNewCustomers l).
Proof.
  cbv zeta. unfold summaryLocals.
  cbn [allCustomersChange activeCustomersChange inactiveCustomersChange
       newCustomersChange allCustomers activeCustomers inactiveCustomers
       newCustomers prevAllCustomers prevActiveCustomers prevInactiveCustomers
       prevNewCustomers].
  split; [reflexivity |]. split; [reflexivity |]. split; reflexivity.
Qed.

Lemma changePairs_rendered zone db today tf current previous text :
  let l := summaryLocals zone db today tf in
  In (current, previous, text) (Spec.changePairs l (summaryMetrics l)) ->
  text = Some (renderedChange current previous).
Proof.
  intros l.
  pose proof (locals_changes zone db today tf) as H. cbv zeta in H. fold l in H.
  destruct H as (A & B & C & D).
  unfold Spec.changePairs, summaryMetrics.
  cbn [Summary.change Summary.allCustomers Summary.activeCustomers
       Summary.inactiveCustomers Summary.newCustomers].
  rewrite A, B, C, D. clearbody l. clear A B C D.
  unfold renderedChange.
  intros [E | [E | [E | [E | []]]]]; injection E as <- <- <-; reflexivity.
Qed.

(** C1 (as amended). For every (current, previous) pair of a summary metric
  with previous = 0 and current = 0, the change string of the response is
  exactly "+0%": [calculateChange] returns the number 0 and the template
  prefixes every value that is [>= 0] with a plus sign. *)
Theorem zero_counts_change zone db today tf current previous text :
  let l := summaryLocals zone db today tf in
  In (current, previous, text) (Spec.changePairs l (summaryMetrics l)) ->
  previous = 0 -> current = 0 -> text = Some "+0%".
Proof.
  intros l HIn -> ->.
  now rewrite (changePairs_rendered zone db today tf 0 0 text HIn).
Qed.

Lemma zero_counts_change_witness :
  Summary.change
    (Summary.allCustomers
       (summaryMetrics (summaryLocals (JsDate.fixedZone 0) [] 1710504000000 "week")))
  = Some "+0%".
Proof.
  apply (zero_counts_change (JsDate.fixedZone 0) [] 1710504000000 "week" 0 0);
    [vm_compute; left; reflexivity | reflexivity | reflexivity].
Defined.

Lemma zero_counts_change_not_bare :
  let l := summaryLocals (JsDate.fixedZone 0) [] 1710504000000 "week" in
  In (0, 0, Some "+0%") (Spec.changePairs l (summaryMetrics l))
  /\ Some "+0%" <> Some "0%".
Proof. split; [vm_compute; left; reflexivity | discriminate]. Qed.

Lemma change_examples :
  renderedChange 75 50 = "+50.00%" /\ renderedChange 40 80 = "-50.00%".
Proof. split; vm_compute; reflexivity. Qed.

Lemma change_from_zero current :
  0 < current -> renderedChange current 0 = "+100%".
Proof.
  intros H. unfold renderedChange, calculateChange.
  cbn [Z.eqb]. apply Z.ltb_lt in H. rewrite H. reflexivity.
Qed.

(** C2. A collection in which 20000 customers registered in the current
  week and 20001 in the week before: the quotient rounds to "-0.00", the
  string converts to a Number that is [>= 0], and the change string of
  [newCustomers] is "+-0.00%". *)
Theorem change_rounding_to_negative_zero :
  let today := 1710504000000 in
  let db := Spec.sampleCollection (Z.to_nat 40001) 20000 (today - 86400000) (today - 864000000) in
  let l := summaryLocals (JsDate.fixedZone 0) db today "week" in
  newCustomers l = 20000 /\ prevNewCustomers l = 20001
  /\ Summary.change (Summary.newCustomers (summaryMetrics l)) = Some "+-0.00%"
  /\ renderedChange 20000 20001 = "+-0.00%".
Proof.
  vm_compute. split; [reflexivity |]. split; [reflexivity |].
  split; reflexivity.
Qed.

End SummaryFacts.

Module InvariantFacts.
Import CustomerController CustomerModel StoreFacts WriteFacts.

Lemma freshId_above db c : In c db -> (_id c < freshId db)%nat.
Proof.
  unfold freshId. induction db as [| d db IH]; [contradiction |].
  cbn [fold_right]. intros [-> | H]; [lia |]. specialize (IH H). lia.
Qed.

Lemma freshId_new db : ~ In (freshId db) (List.map _id db).
Proof.
  intros H. apply in_map_iff in H. destruct H as (c & E & HIn).
  apply freshId_above in HIn. lia.
Qed.

Lemma NoDup_snoc {A : Type} (l : list A) (x : A) :
  NoDup l -> ~ In x l -> NoDup (l ++ [x]).
Proof.
  intros Hl Hx. induction Hl as [| y l Hy Hl IH]; cbn.
  - constructor; [intros [] | constructor].
  - constructor.
    + rewrite in_app_iff. intros [H | [H | []]]; [auto |].
      subst. apply Hx. now left.
    + apply IH. intros H. apply Hx. now right.
Qed.

Lemma unique_by_id db a b :
  NoDup (List.map _id db) -> In a db -> In b db -> _id a = _id b -> a = b.
Proof.
  induction db as [| c db IH]; [contradiction |].
  cbn [List.map]. intros Hn Ha Hb E. inversion Hn as [| ? ? Hc Hn']; subst.
  destruct Ha as [-> | Ha], Hb as [-> | Hb]; auto.
  - exfalso. apply Hc. rewrite E. now apply in_map.
  - exfalso. apply Hc. rewrite <- E. now apply in_map.
Qed.

Lemma replace_ids db doc : List.map _id (replace db doc) = List.map _id db.
Proof.
  unfold replace. induction db as [| c db IH]; [reflexivity |].
  cbn [List.map]. rewrite IH. f_equal.
  destruct (Nat.eqb (_id c) (_id doc)) eqn:E; [| reflexivity].
  apply Nat.eqb_eq in E. now symmetry.
Qed.

Lemma replace_length db doc : List.length (replace db doc) = List.length db.
Proof. apply length_map. Qed.

Lemma replace_other db doc c :
  _id c <> _id doc -> In c (replace db doc) <-> In c db.
Proof.
  intros Hne. unfold replace. rewrite in_map_iff. split.
  - intros (d & E & HIn). destruct (Nat.eqb (_id d) (_id doc)) eqn:Ed.
    + subst. contradiction.
    + now subst.
  - intros HIn. exists c. split; [| exact HIn].
    apply Nat.eqb_neq in Hne. now rewrite Hne.
Qed.

Lemma replace_Forall (P : Customer -> Prop) db doc :
  Forall P db -> P doc -> Forall P (replace db doc).
Proof.
  intros H Hd. unfold replace. apply Forall_map.
  apply (Forall_impl _ (P := P)); [| exact H].
  intros c Hc. now destruct (Nat.eqb (_id c) (_id doc)).
Qed.

Lemma replace_emails db orig doc :
  NoDup (List.map _id db) -> NoDup (List.map email db) ->
  In orig db -> _id doc = _id orig ->
  (forall c, In c db -> _id c <> _id doc -> email c <> email doc) ->
  NoDup (List.map email (replace db doc)).
Proof.
  intros Hi He Ho Eid Hother.
  assert (Hrep : forall c, In c db -> _id c = _id doc -> c = orig).
  { intros c Hc E. apply (unique_by_id db); auto. congruence. }
  clear Ho. unfold replace.
  induction db as [| c db IH]; [constructor |].
  cbn [List.map] in *. inversion Hi as [| ? ? Hci Hi']; subst.
  inversion He as [| ? ? Hce He']; subst.
  constructor.
  - intros HIn. apply in_map_iff in HIn. destruct HIn as (d & Ed & Hd).
    apply in_map_iff in Hd. destruct Hd as (d0 & Ed0 & Hd0). subst d.
    destruct (Nat.eqb (_id c) (_id doc)) eqn:Ec;
      destruct (Nat.eqb (_id d0) (_id doc)) eqn:Ed0.
    + apply Nat.eqb_eq in Ec, Ed0. apply Hci. rewrite Ec, <- Ed0.
      now apply in_map.
    + apply Nat.eqb_neq in Ed0.
      apply (Hother d0); [now right | exact Ed0 | exact Ed].
    + apply Nat.eqb_neq in Ec.
      apply (Hother c); [now left | exact Ec | now symmetry].
    + apply Hce. rewrite <- Ed. now apply in_map.
  - apply IH; auto.
    + intros d Hd. apply Hother. now right.
    + intros d Hd. apply Hrep. now right.
Qed.

Lemma save_wellFormed db now orig doc u db' :
  Spec.wellFormed db -> In orig db ->
  save db now orig doc = Resolved (u, db') ->
  _id doc = _id orig ->
  email doc = JsString.toLowerCase (email doc) ->
  Spec.wellFormed db'.
Proof.
  intros (Hi & He & Hv & Hl) Ho H Eid Hlow. unfold save in H.
  destruct (validate doc) eqn:Vd; [| discriminate]. cbn [negb] in H.
  destruct (isModified orig doc); cbn [negb] in H;
    [| injection H as <- <-; repeat split; assumption].
  destruct (negb (String.eqb (email orig) (email doc)) && _) eqn:Hd;
    [discriminate |].
  injection H as <- <-.
  split; [now rewrite replace_ids |].
  split; [| split].
  - apply (replace_emails db orig); auto.
    cbn [_id email withUpdatedAt]. intros c Hc Hne.
    apply andb_false_iff in Hd. destruct Hd as [Hd | Hd].
    + apply negb_false_iff, String.eqb_eq in Hd.
      intros E. apply Hne.
      assert (Ee : email c = email orig) by congruence.
      assert (c = orig); [| subst; congruence].
      revert He Hc Ho Ee. clear. intros He Hc Ho Ee.
      induction db as [| d db IH]; [contradiction |].
      cbn [List.map] in He. inversion He as [| ? ? Hn He']; subst.
      destruct Hc as [-> | Hc], Ho as [-> | Ho]; auto.
      * exfalso. apply Hn. rewrite Ee. now apply in_map.
      * exfalso. apply Hn. rewrite <- Ee. now apply in_map.
    + intros E.
      assert (Ht : existsb (fun c0 => negb (Nat.eqb (_id c0) (_id doc))
                                      && String.eqb (email c0) (email doc)) db = true);
        [| congruence].
      apply existsb_exists. exists c. split; [exact Hc |].
      apply Nat.eqb_neq in Hne. rewrite Hne, E. cbn. apply String.eqb_refl.
  - apply replace_Forall; [exact Hv | exact Vd].
  - apply replace_Forall; [exact Hl | exact Hlow].
Qed.


Lemma wellFormed_nil : Spec.wellFormed [].
Proof. repeat split; constructor. Qed.

Lemma create_wellFormed db now n e p oc ot cs st ac doc db' :
  Spec.wellFormed db ->
  create db now n e p oc ot cs st ac = Resolved (doc, db') ->
  Spec.wellFormed db'.
Proof.
  intros (Hi & He & Hv & Hl) H. unfold create in H.
  destruct (validate _) eqn:Vd; [| discriminate]. cbn [negb] in H.
  destruct (existsb _ db) eqn:Ex; [discriminate |].
  injection H as <- <-. cbn [email] in Ex.
  split; [| split; [| split]].
  - rewrite map_app. apply NoDup_snoc; [exact Hi | apply freshId_new].
  - rewrite map_app. apply NoDup_snoc; [exact He |].
    cbn [List.map email]. intros HIn. apply in_map_iff in HIn.
    destruct HIn as (c & E & Hc).
    assert (Ht : existsb (fun c0 => String.eqb (email c0) (setEmail e)) db = true);
      [| congruence].
    apply existsb_exists. exists c. split; [exact Hc |].
    rewrite E. apply String.eqb_refl.
  - apply Forall_app. split; [exact Hv |]. constructor; [exact Vd | constructor].
  - apply Forall_app. split; [exact Hl |]. constructor; [| constructor].
    cbn [email]. unfold setEmail. now rewrite StringFacts.toLowerCase_idem.
Qed.

Lemma createCustomer_wellFormed db now body :
  Spec.wellFormed db -> Spec.wellFormed (snd (createCustomer db now body)).
Proof.
  intros W. unfold createCustomer.
  destruct (_ || _); [exact W |].
  destruct (findOneByEmail db _); [exact W |].
  destruct (create db now _ _ _ _ _ _ _ _) as [[doc db'] | err] eqn:E.
  - cbn. now apply (create_wellFormed _ _ _ _ _ _ _ _ _ _ _ _ W E).
  - destruct err; exact W.
Qed.

Lemma updatedFields_email_lower customer body :
  email customer = JsString.toLowerCase (email customer) ->
  email (Spec.updatedFields customer body)
  = JsString.toLowerCase (email (Spec.updatedFields customer body)).
Proof.
  intros H. cbn [email Spec.updatedFields]. unfold Spec.emailField.
  destruct (Body.email body) as [e |]; [| exact H].
  destruct (JsString.truthy e && negb (String.eqb e (email customer)));
    [now rewrite StringFacts.toLowerCase_idem | exact H].
Qed.

Lemma wellFormed_lower db c :
  Spec.wellFormed db -> In c db -> email c = JsString.toLowerCase (email c).
Proof.
  intros (_ & _ & _ & Hl) HIn. rewrite Forall_forall in Hl. now apply Hl.
Qed.

Lemma updateCustomer_wellFormed db now id body :
  Spec.wellFormed db -> Spec.wellFormed (snd (updateCustomer db now id body)).
Proof.
  intros W. destruct id as [id |]; [| exact W].
  unfold updateCustomer. cbn [findById].
  destruct (documentWithId db id) as [customer |] eqn:Hf; [| exact W].
  apply findById_id in Hf. destruct Hf as [HIn _].
  destruct (if emailChanges customer (Body.email body) then _ else false);
    [exact W |].
  rewrite applyBody_fields.
  destruct (save db now customer _) as [[u db'] | err] eqn:E.
  - cbn. apply (save_wellFormed db now customer _ u db' W HIn E); [reflexivity |].
    apply updatedFields_email_lower. now apply (wellFormed_lower db).
  - destruct err; exact W.
Qed.

Lemma updateCustomerStatus_wellFormed db now id st :
  Spec.wellFormed db -> Spec.wellFormed (snd (updateCustomerStatus db now id st)).
Proof.
  intros W. destruct id as [id |];
    [| unfold updateCustomerStatus; cbn [findById]; destruct (_ || _); exact W].
  unfold updateCustomerStatus. cbn [findById].
  destruct (_ || _); [exact W |].
  destruct (documentWithId db id) as [customer |] eqn:Hf; [| exact W].
  apply findById_id in Hf. destruct Hf as [HIn _].
  destruct (save db now customer _) as [[u db'] | err] eqn:E; [| exact W].
  cbn. apply (save_wellFormed db now customer _ u db' W HIn E); [reflexivity |].
  cbn [email assignStatus]. now apply (wellFormed_lower db).
Qed.

Lemma findByIdAndDelete_incl db id c : In c (removeById db id) -> In c db.
Proof.
  induction db as [| d db IH]; [contradiction |].
  cbn [removeById]. destruct (Nat.eqb (_id d) id).
  - now right.
  - intros [-> | H]; [now left | right; auto].
Qed.

Lemma findByIdAndDelete_NoDup {A : Type} (f : Customer -> A) db id :
  NoDup (List.map f db) -> NoDup (List.map f (removeById db id)).
Proof.
  induction db as [| d db IH]; [auto |].
  cbn [List.map removeById]. intros H. inversion H as [| ? ? Hn H']; subst.
  destruct (Nat.eqb (_id d) id); [exact H' |].
  cbn [List.map]. constructor; [| auto].
  intros HIn. apply Hn. apply in_map_iff in HIn. destruct HIn as (c & E & Hc).
  rewrite <- E. apply in_map. now apply findByIdAndDelete_incl in Hc.
Qed.

Lemma findByIdAndDelete_Forall (P : Customer -> Prop) db id :
  Forall P db -> Forall P (removeById db id).
Proof.
  intros H. rewrite Forall_forall in *. intros c Hc.
  apply H. now apply findByIdAndDelete_incl in Hc.
Qed.

Lemma deleteCustomer_wellFormed db id :
  Spec.wellFormed db -> Spec.wellFormed (snd (deleteCustomer db id)).
Proof.
  intros W. destruct id as [id |]; [| exact W].
  unfold deleteCustomer. cbn [findById findByIdAndDelete].
  destruct (documentWithId db id); [| exact W]. cbn.
  destruct W as (Hi & He & Hv & Hl).
  repeat split;
    auto using findByIdAndDelete_NoDup, findByIdAndDelete_Forall.
Qed.

Lemma step_wellFormed db r : Spec.wellFormed db -> Spec.wellFormed (Spec.step db r).
Proof.
  destruct r; cbn [Spec.step];
    auto using createCustomer_wellFormed, updateCustomer_wellFormed,
      updateCustomerStatus_wellFormed, deleteCustomer_wellFormed.
Qed.

(** X8. Every sequence of create, update, status and delete requests
  keeps the collection well formed: identities unique, emails unique and
  in lower case, every document valid for the schema. *)
Theorem run_wellFormed db rs : Spec.wellFormed db -> Spec.wellFormed (Spec.run db rs).
Proof.
  unfold Spec.run. revert db. induction rs as [| r rs IH]; intros db W; [exact W |].
  cbn [fold_left]. apply IH. now apply step_wellFormed.
Qed.

Lemma run_wellFormed_witness :
  let rs := [Spec.Create 1710504000000
               (Body.mk (Some "Jane Smith") (Some "Jane.Smith@Example.com")
                  (Some "9876543210") None None None None None);
             Spec.Create 1710504000001
               (Body.mk (Some "J. Smith") (Some "jane.smith@example.com")
                  (Some "1") None None None None None);
             Spec.PatchStatus 1710504000002 (ObjectId 1) (Some "inactive");
             Spec.Delete (ObjectId 7)] in
  List.length (Spec.run [] rs) = 1%nat /\ Spec.wellFormed (Spec.run [] rs).
Proof.
  cbv zeta. split; [vm_compute; reflexivity |].
  apply run_wellFormed. repeat split; constructor.
Defined.

End InvariantFacts.

Module OrderFacts.
Import OrderModel.

Lemma validate_requires_trackingId doc :
  validate doc = true -> requiredString (trackingId doc) = true.
Proof.
  unfold validate. intros H.
  repeat (apply andb_true_iff in H; destruct H as [H ?]). assumption.
Qed.

Lemma save_without_trackingId db now random doc :
  JsString.truthyOpt (trackingId doc) = false ->
  save db now random doc = Rejected ValidationError.
Proof.
  intros H. unfold save.
  destruct (validate doc) eqn:Hv; [| reflexivity].
  apply validate_requires_trackingId in Hv.
  unfold requiredString, CustomerModel.required in Hv.
  unfold JsString.truthyOpt in H. destruct (trackingId doc); congruence.
Qed.

(** C9. Saving an order that has no [trackingId] is rejected by the
  validation of the schema, which runs ahead of the [pre('save')] hook
  that would generate one: nothing is stored. *)
Theorem create_without_trackingId db now random input :
  Input.trackingId input = None ->
  create db now random input = Rejected ValidationError.
Proof.
  intros H. unfold create. apply save_without_trackingId.
  unfold construct. cbn [trackingId]. now rewrite H.
Qed.

Lemma create_without_trackingId_witness :
  create [] 1710504000000 "0.4fzyo82mvyr" Spec.minimalOrder
  = Rejected ValidationError.
Proof.
  apply (create_without_trackingId [] 1710504000000 "0.4fzyo82mvyr"
           Spec.minimalOrder).
  reflexivity.
Defined.

Lemma mapChars_append f a b :
  JsString.mapChars f (a ++ b) = JsString.mapChars f a ++ JsString.mapChars f b.
Proof. induction a as [| c a IH]; cbn; [reflexivity | now rewrite IH]. Qed.

Lemma mapChars_length f s : String.length (JsString.mapChars f s) = String.length s.
Proof. induction s as [| c s IH]; cbn; [reflexivity | now rewrite IH]. Qed.

Lemma substring_length_le s n m : (String.length (String.substring n m s) <= m)%nat.
Proof.
  revert n m. induction s as [| c s IH]; intros n m.
  - destruct n, m; cbn; lia.
  - destruct n as [| n].
    + destruct m as [| m]; cbn; [lia |]. specialize (IH 0%nat m). lia.
    + cbn. apply IH.
Qed.

(** X19. The identifier the [pre('save')] hook builds is "ORD-", the
  upper-cased base-36 time, a dash and at most five upper-cased
  characters of the random string; it has no lower-case letter. *)
Theorem generatedTrackingId_format now random :
  exists suffix,
    generatedTrackingId now random
    = "ORD-" ++ JsString.toUpperCase (JsNumber.toStringRadix 36 now) ++ "-" ++ suffix
    /\ suffix = JsString.toUpperCase (JsString.substr random 2 5)
    /\ (String.length suffix <= 5)%nat
    /\ JsString.allChars (fun c => negb (JsString.isLower c))
         (generatedTrackingId now random) = true.
Proof.
  eexists. split; [| split; [reflexivity | split]].
  - unfold generatedTrackingId, JsString.toUpperCase.
    now rewrite !mapChars_append.
  - unfold JsString.toUpperCase, JsString.substr. rewrite mapChars_length.
    etransitivity; [apply substring_length_le | apply Nat.le_min_l].
  - apply StringFacts.toUpperCase_no_lower.
Qed.

Lemma create_resolved db db' now random input doc :
  create db now random input = Resolved (doc, db') ->
  exists given,
    Input.trackingId input = Some given
    /\ trackingId doc = Some (JsString.trim (JsString.toUpperCase given))
    /\ JsString.trim (JsString.toUpperCase given) <> EmptyString
    /\ db' = (db ++ [doc])%list
    /\ forall o, In o db -> trackingId o <> trackingId doc.
Proof.
  unfold create, save. intros H.
  destruct (validate (construct db now input)) eqn:Hv; [| discriminate].
  cbn [negb] in H.
  pose proof (validate_requires_trackingId _ Hv) as Hr.
  unfold preSave in H.
  replace (JsString.truthyOpt (trackingId (construct db now input))) with true in H
    by (symmetry; exact Hr).
  cbn [negb] in H.
  destruct (existsb _ db) eqn:He; [discriminate |].
  injection H as <- <-.
  unfold construct in Hr, He |- *. cbn [trackingId] in Hr, He |- *.
  destruct (Input.trackingId input) as [given |]; [| discriminate].
  exists given. cbn [option_map] in Hr, He |- *. unfold setTrackingId in *.
  split; [reflexivity |]. split; [reflexivity |].
  split; [now apply StringFacts.truthy_true |].
  split; [reflexivity |].
  intros o HIn Heq.
  match type of He with
  | ?x = false => assert (Ht : x = true); [| congruence]
  end.
  apply existsb_exists. exists o. split; [exact HIn |].
  rewrite Heq. apply String.eqb_refl.
Qed.

(** X20. Every order that [create] stores has the tracking identifier the
  request gave, trimmed and upper-cased and not empty; it is appended to
  the collection and no stored order has the same identifier. *)
Theorem create_keeps_given_trackingId db db' now random input doc :
  create db now random input = Resolved (doc, db') ->
  exists given,
    Input.trackingId input = Some given
    /\ trackingId doc = Some (JsString.trim (JsString.toUpperCase given))
    /\ JsString.trim (JsString.toUpperCase given) <> EmptyString
    /\ db' = (db ++ [doc])%list
    /\ forall o, In o db -> trackingId o <> trackingId doc.
Proof.
  unfold create, save. intros H.
  destruct (validate (construct db now input)) eqn:Hv; [| discriminate].
  cbn [negb] in H.
  pose proof (validate_requires_trackingId _ Hv) as Hr.
  unfold preSave in H.
  replace (JsString.truthyOpt (trackingId (construct db now input))) with true in H
    by (symmetry; exact Hr).
  cbn [negb] in H.
  destruct (existsb _ db) eqn:He; [discriminate |].
  injection H as <- <-.
  unfold construct in Hr, He |- *. cbn [trackingId] in Hr, He |- *.
  destruct (Input.trackingId input) as [given |]; [| discriminate].
  exists given. cbn [option_map] in Hr, He |- *. unfold setTrackingId in *.
  split; [reflexivity |]. split; [reflexivity |].
  split; [now apply StringFacts.truthy_true |].
  split; [reflexivity |].
  intros o HIn Heq.
  match type of He with
  | ?x = false => assert (Ht : x = true); [| congruence]
  end.
  apply existsb_exists. exists o. split; [exact HIn |].
  rewrite Heq. apply String.eqb_refl.
Qed.

(** X21. Creating an order keeps the tracking identifiers of the
  collection pairwise distinct. *)
Theorem create_unique_trackingIds db db' now random input doc :
  NoDup (List.map trackingId db) ->
  create db now random input = Resolved (doc, db') ->
  NoDup (List.map trackingId db').
Proof.
  intros Hn H. apply create_resolved in H.
  destruct H as (given & _ & _ & _ & -> & Hd).
  rewrite map_app. apply InvariantFacts.NoDup_snoc; [exact Hn |].
  cbn [List.map]. intros HIn. apply in_map_iff in HIn.
  destruct HIn as (o & E & Ho). now apply (Hd o Ho).
Qed.

Lemma create_unique_trackingIds_witness :
  let input := OrderModel.Input.mk (Some "Jane Smith") None None
                 (Some "ORD-2") (Some (250 # 1)) None None None None
                 None None in
  let first := OrderModel.Input.mk (Some "John Doe") None None
                 (Some "ord-1") (Some (10 # 1)) None None None None
                 None None in
  match create [] 1710504000000 "0.1" first with
  | Resolved (_, db) =>
      match create db 1710504000001 "0.2" input with
      | Resolved (_, db') => NoDup (List.map trackingId db')
      | Rejected _ => False
      end
  | Rejected _ => False
  end.
Proof.
  cbv zeta.
  destruct (create [] 1710504000000 "0.1" _) as [[d db] | e] eqn:E;
    [| vm_compute in E; discriminate].
  vm_compute in E. injection E as <- <-.
  destruct (create _ 1710504000001 "0.2" _) as [[d' db'] | e] eqn:E';
    [| vm_compute in E'; discriminate].
  eapply create_unique_trackingIds; [| exact E'].
  cbn [List.map]. constructor; [intros [] | constructor].
Defined.

Lemma create_keeps_given_trackingId_witness :
  let input := OrderModel.Input.mk (Some "Jane Smith") None None
                 (Some " ord-123456 ") (Some (250 # 1)) None None None None
                 None None in
  match create [] 1710504000000 "0.4fzyo82mvyr" input with
  | Resolved (doc, db') => trackingId doc = Some "ORD-123456" /\ db' = [doc]
  | Rejected _ => False
  end.
Proof.
  cbv zeta.
  destruct (create [] 1710504000000 "0.4fzyo82mvyr" _) as [[doc db'] | e] eqn:E;
    [| vm_compute in E; discriminate].
  destruct (create_keeps_given_trackingId _ _ _ _ _ _ E)
    as (given & A & B & _ & D & _).
  injection A as <-. split; [exact B | exact D].
Defined.

End OrderFacts.

Module LookupFacts.
Import CustomerController CustomerModel StoreFacts WriteFacts InvariantFacts.

Lemma findById_none db id :
  documentWithId db id = None <-> (forall c, In c db -> _id c <> id).
Proof.
  unfold documentWithId. split.
  - intros H c Hc E. pose proof (find_none _ _ H c Hc) as F. cbn in F.
    apply Nat.eqb_neq in F. contradiction.
  - intros H. destruct (List.find _ db) as [c |] eqn:E; [| reflexivity].
    apply find_some in E. destruct E as [Hc E]. apply Nat.eqb_eq in E.
    now destruct (H c Hc).
Qed.

Lemma findById_unique db c :
  NoDup (List.map _id db) -> In c db -> documentWithId db (_id c) = Some c.
Proof.
  intros Hn Hc. destruct (documentWithId db (_id c)) as [d |] eqn:E.
  - apply findById_id in E. destruct E as [Hd E].
    f_equal. now apply (unique_by_id db).
  - rewrite findById_none in E. now destruct (E c Hc).
Qed.

Lemma getCustomerById_absent db id :
  (forall c, In c db -> _id c <> id) ->
  getCustomerById db (ObjectId id) = failure 404 "Customer not found".
Proof.
  intros H. unfold getCustomerById. cbn [findById].
  apply findById_none in H. now rewrite H.
Qed.

(** X1. [getCustomerById] answers 500 for an identity that is not an
  ObjectId; for an ObjectId it answers 200 with a document of the
  collection that has the identity, or 404 when no document has it. *)
Theorem getCustomerById_status db id :
  let r := getCustomerById db id in
  match id with
  | NotObjectId => r = failure 500 "Error retrieving customer"
  | ObjectId n =>
      (statusCode r = 200
       /\ exists c, In c db /\ _id c = n /\ data r = CustomerData c)
      \/ (r = failure 404 "Customer not found"
          /\ forall c, In c db -> _id c <> n)
  end.
Proof.
  cbv zeta. destruct id as [n |]; [| reflexivity].
  unfold getCustomerById. cbn [findById].
  destruct (documentWithId db n) as [c |] eqn:E.
  - left. apply findById_id in E. destruct E as [Hc E].
    split; [reflexivity |]. exists c. auto.
  - right. split; [reflexivity |]. now apply findById_none.
Qed.

(** X2. When identities are unique, [getCustomerById] on the identity of a
  customer of the collection answers 200 with that customer. *)
Theorem getCustomerById_returns_document db c :
  NoDup (List.map _id db) -> In c db ->
  getCustomerById db (ObjectId (_id c)) = mkResponse 200 true None (CustomerData c).
Proof.
  intros Hn Hc. unfold getCustomerById. cbn [findById].
  now rewrite findById_unique.
Qed.

Lemma getCustomerById_returns_document_witness :
  getCustomerById [Spec.jane; Spec.john] (ObjectId 2)
  = mkResponse 200 true None (CustomerData Spec.john).
Proof.
  apply (getCustomerById_returns_document [Spec.jane; Spec.john] Spec.john).
  - repeat constructor; cbn; intuition discriminate.
  - right; left; reflexivity.
Defined.

(** X3. Deleting an ObjectId that no customer has is answered 404, deleting
  an identity that is not an ObjectId is answered 500, and both leave the
  collection unchanged. *)
Theorem deleteCustomer_missing db id :
  (forall c, In c db -> _id c <> id) ->
  deleteCustomer db (ObjectId id) = (failure 404 "Customer not found", db)
  /\ deleteCustomer db NotObjectId = (failure 500 "Error deleting customer", db).
Proof.
  intros H. split; [| reflexivity].
  unfold deleteCustomer. cbn [findById]. apply findById_none in H.
  now rewrite H.
Qed.

Lemma deleteCustomer_missing_witness :
  deleteCustomer [Spec.jane; Spec.john] (ObjectId 3)
  = (failure 404 "Customer not found", [Spec.jane; Spec.john])
  /\ deleteCustomer [Spec.jane; Spec.john] NotObjectId
     = (failure 500 "Error deleting customer", [Spec.jane; Spec.john]).
Proof.
  apply deleteCustomer_missing.
  intros c [<- | [<- | []]]; discriminate.
Defined.

Lemma findByIdAndDelete_filter db id :
  NoDup (List.map _id db) ->
  removeById db id = List.filter (fun c => negb (Nat.eqb (_id c) id)) db.
Proof.
  induction db as [| d db IH]; [reflexivity |].
  cbn [List.map removeById List.filter]. intros H.
  inversion H as [| ? ? Hn H']; subst.
  destruct (Nat.eqb (_id d) id) eqn:E; cbn [negb].
  - apply Nat.eqb_eq in E. symmetry. apply forallb_filter_id.
    apply forallb_forall. intros c Hc. apply negb_true_iff, Nat.eqb_neq.
    intros Ec. apply Hn. rewrite E, <- Ec. now apply in_map.
  - now rewrite IH.
Qed.

Lemma findByIdAndDelete_length db id c :
  documentWithId db id = Some c ->
  S (List.length (removeById db id)) = List.length db.
Proof.
  unfold documentWithId. induction db as [| d db IH]; [discriminate |].
  cbn [List.find removeById]. destruct (Nat.eqb (_id d) id); [reflexivity |].
  intros H. cbn [List.length]. now rewrite IH.
Qed.

(** X4. When identities are unique, deleting a customer of the collection
  is answered 200; the collection keeps, in order, exactly the other
  customers, it is one shorter, and [getCustomerById] on the deleted
  identity then answers 404. *)
Theorem deleteCustomer_removes db c :
  NoDup (List.map _id db) -> In c db ->
  let r := deleteCustomer db (ObjectId (_id c)) in
  fst r = mkResponse 200 true (Some "Customer deleted successfully") NoData
  /\ snd r = List.filter (fun d => negb (Nat.eqb (_id d) (_id c))) db
  /\ S (List.length (snd r)) = List.length db
  /\ (forall d, In d (snd r) <-> In d db /\ d <> c)
  /\ getCustomerById (snd r) (ObjectId (_id c)) = failure 404 "Customer not found".
Proof.
  intros Hn Hc r. unfold r, deleteCustomer. cbn [findById findByIdAndDelete].
  pose proof (findById_unique db c Hn Hc) as Hf. rewrite Hf. cbn [fst snd].
  rewrite (findByIdAndDelete_length db (_id c) c Hf).
  rewrite (findByIdAndDelete_filter db (_id c) Hn).
  split; [reflexivity |]. split; [reflexivity |]. split; [reflexivity |].
  split.
  - intros d. rewrite filter_In, negb_true_iff, Nat.eqb_neq. split.
    + intros [Hd Hne]. split; [exact Hd | congruence].
    + intros [Hd Hne]. split; [exact Hd |]. intros E. apply Hne.
      now apply (unique_by_id db).
  - apply getCustomerById_absent. intros d Hd E.
    apply filter_In in Hd. destruct Hd as [_ Hd].
    apply negb_true_iff, Nat.eqb_neq in Hd. contradiction.
Qed.

Lemma deleteCustomer_removes_witness :
  let r := deleteCustomer [Spec.jane; Spec.john] (ObjectId 1) in
  snd r = [Spec.john]
  /\ getCustomerById (snd r) (ObjectId 1) = failure 404 "Customer not found".
Proof.
  cbv zeta.
  destruct (deleteCustomer_removes [Spec.jane; Spec.john] Spec.jane)
    as (_ & A & _ & _ & B).
  - repeat constructor; cbn; intuition discriminate.
  - left; reflexivity.
  - split; [exact A | exact B].
Defined.

Lemma find_app_none (p : Customer -> bool) l l' :
  List.find p l = None -> List.find p (l ++ l') = List.find p l'.
Proof.
  induction l as [| x l IH]; [reflexivity |]. cbn.
  destruct (p x); [discriminate | exact IH].
Qed.

(** X5. A creation answered 201 appends one customer: its identity and
  email are new to the collection, it passes the validators, its name and
  phone are trimmed and its email is lower-cased, both timestamps are the
  clock, and [getCustomerById] on its identity returns it. *)
Theorem createCustomer_then_get db now body :
  let r := createCustomer db now body in
  statusCode (fst r) = 201 ->
  exists c,
    fst r = mkResponse 201 true (Some "Customer created successfully")
              (CustomerData c)
    /\ snd r = (db ++ [c])%list
    /\ (forall d, In d db -> _id d <> _id c /\ email d <> email c)
    /\ getCustomerById (snd r) (ObjectId (_id c)) = mkResponse 200 true None (CustomerData c)
    /\ validate c = true
    /\ Some (email c) = option_map JsString.toLowerCase (Body.email body)
    /\ Some (customerName c) = option_map JsString.trim (Body.customerName body)
    /\ Some (phone c) = option_map JsString.trim (Body.phone body)
    /\ createdAt c = now /\ updatedAt c = now.
Proof.
  cbv zeta. unfold createCustomer.
  destruct (Body.customerName body) as [n |]; [| discriminate].
  destruct (Body.email body) as [e |];
    [| cbn; rewrite orb_true_r; discriminate].
  destruct (Body.phone body) as [p |];
    [| cbn; rewrite !orb_true_r; discriminate].
  cbn [JsString.truthyOpt].
  destruct (JsString.truthy n) eqn:Tn; [| discriminate].
  destruct (JsString.truthy e) eqn:Te; [| discriminate].
  destruct (JsString.truthy p) eqn:Tp; [| discriminate].
  cbn [negb orb orString]. rewrite Tn, Te, Tp.
  destruct (findOneByEmail db e); [discriminate |].
  unfold create.
  destruct (validate _) eqn:Vd; [| discriminate]. cbn [negb].
  destruct (existsb _ db) eqn:Ex; [discriminate |].
  cbn [fst snd]. intros _. eexists.
  split; [reflexivity |]. split; [reflexivity |].
  cbn [_id email customerName phone createdAt updatedAt option_map].
  split; [| split; [| split; [exact Vd |]]].
  - intros d Hd. split.
    + pose proof (freshId_above db d Hd). lia.
    + intros E.
      assert (Ht : existsb (fun c0 => String.eqb (email c0) (setEmail e)) db = true);
        [| cbn [email] in Ex; congruence].
      apply existsb_exists. exists d. split; [exact Hd |].
      rewrite E. apply String.eqb_refl.
  - unfold getCustomerById. cbn [findById]. unfold documentWithId.
    rewrite find_app_none.
    + cbn. now rewrite Nat.eqb_refl.
    + apply (proj2 (findById_none db (freshId db))).
      intros d Hd. pose proof (freshId_above db d Hd). lia.
  - repeat split; reflexivity.
Qed.

Lemma createCustomer_then_get_witness :
  let body := Body.mk (Some " John Doe ") (Some "John.Doe@Example.com")
                (Some "+1234567890") None None None None None in
  let r := createCustomer [Spec.jane] 1710504000000 body in
  exists c,
    snd r = [Spec.jane; c] /\ email c = "john.doe@example.com"
    /\ customerName c = "John Doe"
    /\ getCustomerById (snd r) (ObjectId (_id c)) = mkResponse 200 true None (CustomerData c).
Proof.
  cbv zeta.
  destruct (createCustomer_then_get [Spec.jane] 1710504000000
              (Body.mk (Some " John Doe ") (Some "John.Doe@Example.com")
                 (Some "+1234567890") None None None None None)
              ltac:(vm_compute; reflexivity))
    as (c & _ & A & _ & B & _ & C & D & _).
  exists c. split; [exact A |].
  injection C as C. injection D as D.
  split; [exact C |]. split; [exact D | exact B].
Defined.

End LookupFacts.

Module ListingFacts.
Import CustomerController CustomerModel.

Lemma keyLeb_total a b : keyLeb a b = true \/ keyLeb b a = true.
Proof.
  destruct a, b; cbn; auto.
  - destruct (Qlt_le_dec q0 q) as [H | H].
    + right. apply Qle_bool_iff. now apply Qlt_le_weak.
    + left. now apply Qle_bool_iff.
  - apply String.leb_total.
  - destruct (Z.leb_spec t t0); [auto | right; apply Z.leb_le; lia].
  - destruct (Nat.leb_spec n n0); [auto | right; apply Nat.leb_le; lia].
Qed.

Lemma sortLeb_total field direction a b :
  sortLeb field direction a b = true \/ sortLeb field direction b a = true.
Proof. unfold sortLeb. destruct (direction =? 1); apply keyLeb_total. Qed.

Lemma Sorted_skipn {A : Type} (R : A -> A -> Prop) n l :
  Sorted R l -> Sorted R (List.skipn n l).
Proof.
  revert l. induction n as [| n IH]; intros l H; [exact H |].
  destruct l as [| x l]; [constructor |]. cbn. apply IH. now inversion H.
Qed.

Lemma Sorted_firstn {A : Type} (R : A -> A -> Prop) n l :
  Sorted R l -> Sorted R (List.firstn n l).
Proof.
  revert l. induction n as [| n IH]; intros l H; [constructor |].
  destruct l as [| x l]; [constructor |]. cbn.
  inversion H as [| ? ? Hs Hr]; subst. constructor; [now apply IH |].
  destruct n; [constructor |].
  destruct l as [| y l]; [constructor |]. cbn. constructor. now inversion Hr.
Qed.

Lemma In_firstn_skipn {A : Type} n k (l : list A) x :
  In x (List.firstn n (List.skipn k l)) -> In x l.
Proof.
  intros H.
  rewrite <- (firstn_skipn k l). apply in_or_app. right.
  rewrite <- (firstn_skipn n (List.skipn k l)). apply in_or_app. now left.
Qed.

Lemma insert_perm le x l : Permutation (Spec.insert le x l) (x :: l).
Proof.
  induction l as [| y l IH]; cbn; [reflexivity |].
  destruct (le x y); [reflexivity |].
  rewrite IH. apply perm_swap.
Qed.

Lemma insertionSort_perm le l : Permutation (Spec.insertionSort le l) l.
Proof.
  induction l as [| x l IH]; cbn; [reflexivity |].
  rewrite insert_perm. now constructor.
Qed.

Lemma insert_sorted (le : Customer -> Customer -> bool) x l :
  (forall a b, le a b = true \/ le b a = true) ->
  Sorted (fun a b => le a b = true) l ->
  Sorted (fun a b => le a b = true) (Spec.insert le x l).
Proof.
  intros T H. induction H as [| y l Hs IH Hr]; cbn.
  - repeat constructor.
  - destruct (le x y) eqn:E.
    + constructor; [now constructor | now constructor].
    + constructor; [exact IH |].
      destruct l as [| z l]; cbn.
      * constructor. destruct (T x y); congruence.
      * destruct (le x z); constructor.
        -- destruct (T x y); congruence.
        -- now inversion Hr.
Qed.

Lemma insertionSort_sorted (le : Customer -> Customer -> bool) l :
  (forall a b, le a b = true \/ le b a = true) ->
  Sorted (fun a b => le a b = true) (Spec.insertionSort le l).
Proof.
  intros T. induction l as [| x l IH]; cbn; [constructor |].
  now apply insert_sorted.
Qed.

Section Store.

Variable regex : string -> option (string -> bool).
Variable storeSort : (Customer -> Customer -> bool) -> list Customer
                     -> list Customer.

Hypothesis storeSort_perm : forall le l, Permutation (storeSort le l) l.
Hypothesis storeSort_sorted :
  forall le l, (forall a b, le a b = true \/ le b a = true) ->
               Sorted (fun a b => le a b = true) (storeSort le l).

Lemma getAllCustomers_unfold db q pageNum limitNum filter :
  JsNumber.integerOf (parseParam (ListQuery.page q) 1) = Some pageNum ->
  JsNumber.integerOf (parseParam (ListQuery.limit q) 10) = Some limitNum ->
  1 <= pageNum -> 1 <= limitNum -> pageNum * limitNum <= 2 ^ 53 ->
  In (Spec.sortField q) schemaPaths ->
  buildFilter regex q = Some filter ->
  getAllCustomers regex storeSort db q
  = Some (mkResponse 200 true None
            (CustomerList
               (Z.of_nat (List.length (Spec.pageOf storeSort db q filter pageNum limitNum)))
               (countDocuments db filter) pageNum
               (ceilDiv (countDocuments db filter) limitNum)
               (Spec.pageOf storeSort db q filter pageNum limitNum))).
Proof.
  intros Hp Hl Hp1 Hl1 Hpl Hs Hf. unfold getAllCustomers.
  rewrite Hp, Hl, Hf.
  apply Z.leb_le in Hp1, Hl1, Hpl. rewrite Hp1, Hl1, Hpl. cbn [andb].
  fold (Spec.sortField q).
  assert (E : existsb (String.eqb (Spec.sortField q)) schemaPaths = true).
  { apply existsb_exists. exists (Spec.sortField q). split; [exact Hs |].
    apply String.eqb_refl. }
  rewrite E. unfold Spec.pageOf, Spec.sortDirection.
  destruct (ListQuery.sortOrder q) as [o |]; reflexivity.
Qed.

Lemma buildFilter_selected q filter c :
  buildFilter regex q = Some filter ->
  filter c = true <-> Spec.selected regex q c.
Proof.
  unfold buildFilter, Spec.selected. intros H.
  assert (S : (match ListQuery.status q with
               | Some st => if JsString.truthy st then String.eqb (status c) st
                            else true
               | None => true
               end) = true
              <-> (forall st, ListQuery.status q = Some st -> st <> EmptyString ->
                              status c = st)).
  { destruct (ListQuery.status q) as [st |].
    - destruct (JsString.truthy st) eqn:T.
      + split.
        * intros E st' [= <-] _. now apply String.eqb_eq.
        * intros E. apply String.eqb_eq. apply E; [reflexivity |].
          now apply StringFacts.truthy_true.
      + split; [| reflexivity]. intros _ st' [= <-] Hne.
        apply StringFacts.truthy_true in Hne. congruence.
    - split; [discriminate | reflexivity]. }
  destruct (ListQuery.search q) as [pat |]; cbn [JsString.truthyOpt] in H.
  - destruct (JsString.truthy pat) eqn:T.
    + cbn [orString] in H. rewrite T in H.
      destruct (regex pat) as [test |] eqn:R; [| discriminate].
      injection H as <-. rewrite andb_true_iff, S, !orb_true_iff.
      split.
      * intros [M St]. split; [exact St |].
        intros pat' test' [= <-] _ R'. rewrite R in R'. injection R' as <-.
        tauto.
      * intros [St M]. split; [| exact St].
        specialize (M pat test eq_refl
                      (proj1 (StringFacts.truthy_true pat) T) R). tauto.
    + injection H as <-. rewrite S. split.
      * intros St. split; [exact St |]. intros pat' test' [= <-] Hne.
        apply StringFacts.truthy_true in Hne. congruence.
      * now intros [St _].
  - injection H as <-. rewrite S. split.
    + intros St. split; [exact St | discriminate].
    + now intros [St _].
Qed.

(** X16. For a page and a limit that [parseInt] reads as positive integer
Numbers with a product of at most 2^53, the list response has
the page number it echoes equal to the Number read, [total] equal to the number of
selected documents, [count] equal to the limit or to what is left
after the pages before if that is less, and [pages] the least number
of pages that hold [total] documents. *)
Theorem getAllCustomers_pagination db q pageNum limitNum filter :
  JsNumber.integerOf (parseParam (ListQuery.page q) 1) = Some pageNum ->
  JsNumber.integerOf (parseParam (ListQuery.limit q) 10) = Some limitNum ->
  1 <= pageNum -> 1 <= limitNum -> pageNum * limitNum <= 2 ^ 53 ->
  In (Spec.sortField q) schemaPaths ->
  buildFilter regex q = Some filter ->
  exists count total pages docs,
    getAllCustomers regex storeSort db q
    = Some (mkResponse 200 true None
              (CustomerList count total pageNum pages docs))
    /\ count = Z.of_nat (List.length docs)
    /\ total = Z.of_nat (List.length (List.filter filter db))
    /\ count = Z.min limitNum (Z.max 0 (total - (pageNum - 1) * limitNum))
    /\ (pages - 1) * limitNum < total <= pages * limitNum.
Proof.
  intros Hp Hl Hp1 Hl1 Hpl Hs Hf.
  rewrite (getAllCustomers_unfold db q pageNum limitNum filter Hp Hl Hp1 Hl1 Hpl Hs Hf).
  do 4 eexists. split; [reflexivity |]. split; [reflexivity |].
  split; [reflexivity |]. split.
  - unfold Spec.pageOf. rewrite length_firstn, length_skipn.
    rewrite (Permutation_length (storeSort_perm _ _)).
    unfold countDocuments.
    assert (K : 0 <= (pageNum - 1) * limitNum) by nia.
    revert K. generalize ((pageNum - 1) * limitNum). intros k K. lia.
  - unfold ceilDiv, countDocuments.
    set (t := Z.of_nat (List.length (List.filter filter db))).
    pose proof (Z.div_mod (t + limitNum - 1) limitNum ltac:(lia)) as D.
    pose proof (Z.mod_pos_bound (t + limitNum - 1) limitNum ltac:(lia)) as B.
    nia.
Qed.



End Store.

Lemma getAllCustomers_pagination_witness :
  let db := Spec.sampleCollection 25 5 2000 1000 in
  let q := ListQuery.mk (Some "2") (Some "10") None None None None in
  exists docs,
    getAllCustomers Spec.literalRegex Spec.insertionSort db q
    = Some (mkResponse 200 true None (CustomerList 10 25 2 3 docs)).
Proof.
  cbv zeta.
  destruct (getAllCustomers_pagination Spec.literalRegex Spec.insertionSort
              insertionSort_perm
              (Spec.sampleCollection 25 5 2000 1000)
              (ListQuery.mk (Some "2") (Some "10") None None None None)
              2 10 (fun _ => true) ltac:(vm_compute; reflexivity) ltac:(vm_compute; reflexivity)
              ltac:(lia) ltac:(lia) ltac:(vm_compute; discriminate)
              ltac:(vm_compute; tauto) eq_refl)
    as (count & total & pages & docs & E & A & B & C & D).
  exists docs. rewrite E.
  assert (T : total = 25) by (rewrite B; vm_compute; reflexivity).
  subst total.
  replace count with 10 by (rewrite C; reflexivity).
  replace pages with 3 by lia. reflexivity.
Defined.

Example page_beyond_safe_integers :
  let q := ListQuery.mk (Some "9007199254740993") (Some "1") None None None None in
  exists count total pages docs,
    getAllCustomers Spec.literalRegex Spec.insertionSort [Spec.jane] q
    = Some (mkResponse 200 true None
              (CustomerList count total 9007199254740992 pages docs)).
Proof.
  cbv zeta.
  rewrite (getAllCustomers_unfold Spec.literalRegex Spec.insertionSort
             [Spec.jane]
             (ListQuery.mk (Some "9007199254740993") (Some "1") None None None None)
             9007199254740992 1 (fun _ => true)
             ltac:(vm_compute; reflexivity) ltac:(vm_compute; reflexivity)
             ltac:(lia) ltac:(lia) ltac:(vm_compute; discriminate)
             ltac:(vm_compute; tauto) eq_refl).
  do 4 eexists. reflexivity.
Qed.



End ListingFacts.

Module MoreSummaryFacts.
Import CustomerController CustomerModel DateFacts SummaryFacts.

Lemma countDocuments_le (p q : Customer -> bool) db :
  (forall c, p c = true -> q c = true) ->
  0 <= countDocuments db p <= countDocuments db q.
Proof.
  intros H. unfold countDocuments. split; [lia |].
  apply inj_le. induction db as [| c db IH]; [reflexivity |].
  cbn [List.filter]. destruct (p c) eqn:P.
  - rewrite (H c P). cbn. lia.
  - destruct (q c); cbn; lia.
Qed.

Lemma countDocuments_dichotomy (p : Customer -> bool) db :
  countDocuments db (fun _ => true)
  = countDocuments db p + countDocuments db (fun c => negb (p c)).
Proof.
  unfold countDocuments. induction db as [| c db IH]; [reflexivity |].
  cbn [List.filter]. destruct (p c); cbn [negb List.length]; lia.
Qed.

(** X12. In the summary every customer is either new or counted in
  [prevAllCustomers]; the counts of the period before never exceed the
  current ones, [prevNewCustomers] is at most [prevAllCustomers], and
  [purchasingCustomers] at most [allCustomers]. *)
Theorem summary_counts zone db today tf :
  let l := summaryLocals zone db today tf in
  allCustomers l = newCustomers l + prevAllCustomers l
  /\ 0 <= prevAllCustomers l <= allCustomers l
  /\ 0 <= prevActiveCustomers l <= activeCustomers l
  /\ 0 <= prevInactiveCustomers l <= inactiveCustomers l
  /\ 0 <= prevNewCustomers l <= prevAllCustomers l
  /\ 0 <= purchasingCustomers l <= allCustomers l.
Proof.
  cbv zeta. unfold summaryLocals.
  cbn [allCustomers newCustomers prevAllCustomers prevActiveCustomers
       activeCustomers prevInactiveCustomers inactiveCustomers prevNewCustomers
       purchasingCustomers].
  set (s := startDateOf zone today tf).
  set (p := JsDate.setDate zone s _). clearbody p s.
  split.
  - rewrite (countDocuments_dichotomy (fun c => s <=? customerSince c)).
    f_equal. apply countDocuments_ext. intros c.
    rewrite Z.ltb_antisym. reflexivity.
  - split; [apply countDocuments_le; auto |].
    split; [apply countDocuments_le; intros c H;
            now apply andb_true_iff in H |].
    split; [apply countDocuments_le; intros c H;
            now apply andb_true_iff in H |].
    split; [apply countDocuments_le; intros c H;
            now apply andb_true_iff in H |].
    apply countDocuments_le; auto.
Qed.

(** X13. For a timeframe that is neither month nor year (in any letter
  case), [startDate] is seven days before the clock, [periodDays] is 7,
  and [previousStartDate] is fourteen days before the clock. *)
Theorem week_window tza db today tf :
  Spec.lookbackOf (Some tf) = Spec.SevenDays ->
  let l := summaryLocals (JsDate.fixedZone tza) db today tf in
  startDate l = today - 7 * JsDate.msPerDay
  /\ periodDays l = 7
  /\ previousStartDate l = today - 14 * JsDate.msPerDay.
Proof.
  intros H l.
  destruct (previous_period_lemma tza db today tf) as (A & B & C).
  fold l in A, B, C. rewrite H in A. cbn [Spec.periodStart] in A.
  assert (P : periodDays l = 7).
  { rewrite B, A. rewrite msPerDay_value.
    replace (today - (today - 7 * 86400000)) with (7 * 86400000) by lia.
    reflexivity. }
  split; [exact A |]. split; [exact P |]. rewrite C, P, A. lia.
Qed.

Lemma week_window_witness :
  let l := summaryLocals (JsDate.fixedZone 19800000) [] 1710504000000 "Quarter" in
  startDate l = 1710504000000 - 7 * JsDate.msPerDay
  /\ periodDays l = 7
  /\ previousStartDate l = 1710504000000 - 14 * JsDate.msPerDay.
Proof.
  apply (week_window 19800000 [] 1710504000000 "Quarter"). reflexivity.
Defined.

(** X14. A summary metric with no customer in the period before and at
  least one now has the change string "+100%". *)
Theorem rise_from_zero zone db today tf current previous text :
  let l := summaryLocals zone db today tf in
  In (current, previous, text) (Spec.changePairs l (summaryMetrics l)) ->
  previous = 0 -> 0 < current -> text = Some "+100%".
Proof.
  intros l HIn -> Hc.
  rewrite (changePairs_rendered zone db today tf current 0 text HIn).
  now rewrite change_from_zero.
Qed.

Lemma rise_from_zero_witness :
  let db := Spec.sampleCollection 3 3 1710504000000 0 in
  Summary.change
    (Summary.newCustomers
       (summaryMetrics (summaryLocals (JsDate.fixedZone 0) db 1710504000000 "week")))
  = Some "+100%".
Proof.
  cbv zeta.
  apply (rise_from_zero (JsDate.fixedZone 0) (Spec.sampleCollection 3 3 1710504000000 0)
           1710504000000 "week" 3 0);
    [vm_compute; tauto | reflexivity | lia].
Defined.



End MoreSummaryFacts.

Module MoreWriteFacts.
Import CustomerController CustomerModel StoreFacts WriteFacts InvariantFacts LookupFacts.

Lemma findOneByEmail_absent db e :
  (forall c, In c db -> email c <> JsString.toLowerCase e) ->
  findOneByEmail db e = None.
Proof.
  intros H. unfold findOneByEmail.
  destruct (List.find _ db) as [c |] eqn:E; [| reflexivity].
  apply find_some in E. destruct E as [Hc E]. apply String.eqb_eq in E.
  now destruct (H c Hc).
Qed.

(** X6. A creation request with name, email and phone, a new email and a
  non-empty status outside of the enum is answered 500 (the validation
  error of the schema is not mapped to a 400) and stores nothing. *)
Theorem createCustomer_invalid_status db now body n e p s :
  Body.customerName body = Some n -> n <> EmptyString ->
  Body.email body = Some e -> e <> EmptyString ->
  Body.phone body = Some p -> p <> EmptyString ->
  (forall c, In c db -> email c <> JsString.toLowerCase e) ->
  Body.status body = Some s -> s <> EmptyString -> s <> "active" -> s <> "inactive" ->
  createCustomer db now body = (failure 500 "Error creating customer", db).
Proof.
  intros Hn Tn He Te Hp Tp Hfree Hs Ts Sa Si.
  apply StringFacts.truthy_true in Tn, Te, Tp, Ts.
  unfold createCustomer. rewrite Hn, He, Hp, Hs.
  cbn [JsString.truthyOpt orString]. rewrite Tn, Te, Tp, Ts. cbn [negb orb].
  rewrite (findOneByEmail_absent db e Hfree).
  unfold create.
  assert (V : forall c, status c = s -> validate c = false).
  { intros c Ec. unfold validate. rewrite Ec.
    assert (En : statusEnum s = false).
    { unfold statusEnum. apply String.eqb_neq in Sa, Si. now rewrite Sa, Si. }
    rewrite En. now rewrite andb_false_r. }
  rewrite V; reflexivity.
Qed.

Lemma createCustomer_invalid_status_witness :
  createCustomer [Spec.jane] 1710504000000
    (Body.mk (Some "John Doe") (Some "john.doe@example.com") (Some "1") None
       None None (Some "archived") None)
  = (failure 500 "Error creating customer", [Spec.jane]).
Proof.
  apply (createCustomer_invalid_status [Spec.jane] 1710504000000 _
           "John Doe" "john.doe@example.com" "1" "archived");
    try reflexivity; try discriminate.
  intros c [<- | []]. discriminate.
Defined.

(** X7. The customer of a 201 response has status "active" where the
  request has no non-empty status, zero orders, order total and
  abandoned carts where the request leaves them out, and
  [customerSince] equal to the clock where the request leaves it out or
  gives the number 0. *)
Theorem createCustomer_defaults db now body c msg :
  fst (createCustomer db now body) = mkResponse 201 true msg (CustomerData c) ->
  status c = Spec.stringField "active" (Body.status body) (fun s => s)
  /\ ordersCount c = Spec.field 0 (Body.ordersCount body)
  /\ Qeq (orderTotal c) (Spec.field 0%Q (Body.orderTotal body))
  /\ abandonedCarts c = Spec.field 0 (Body.abandonedCarts body)
  /\ customerSince c = Spec.dateField now (Body.customerSince body).
Proof.
  unfold createCustomer.
  destruct (_ || _); [discriminate |].
  destruct (findOneByEmail db _); [discriminate |].
  unfold create.
  destruct (validate _); cbn [negb]; [| discriminate].
  destruct (existsb _ db); [discriminate |].
  cbn [fst]. intros [= _ <-].
  cbn [status ordersCount orderTotal abandonedCarts customerSince].
  split; [reflexivity |].
  split; [destruct (Body.ordersCount body) as [v |]; cbn; [| reflexivity];
          destruct (Z.eqb_spec v 0); congruence |].
  split; [destruct (Body.orderTotal body) as [v |]; cbn; [| reflexivity];
          destruct (Qeq_bool v 0) eqn:Q; [| reflexivity];
          symmetry; now apply Qeq_bool_iff |].
  split; [destruct (Body.abandonedCarts body) as [v |]; cbn; [| reflexivity];
          destruct (Z.eqb_spec v 0); congruence |].
  reflexivity.
Qed.

Lemma createCustomer_defaults_witness :
  let body := Body.mk (Some "John Doe") (Some "john.doe@example.com")
                (Some "+1234567890") None None None None None in
  exists c,
    fst (createCustomer [Spec.jane] 1710504000000 body)
    = mkResponse 201 true (Some "Customer created successfully") (CustomerData c)
    /\ status c = "active" /\ ordersCount c = 0 /\ Qeq (orderTotal c) 0
    /\ abandonedCarts c = 0 /\ customerSince c = 1710504000000.
Proof.
  cbv zeta. eexists. split; [vm_compute; reflexivity |].
  apply (createCustomer_defaults [Spec.jane] 1710504000000
           (Body.mk (Some "John Doe") (Some "john.doe@example.com")
              (Some "+1234567890") None None None None None) _
           (Some "Customer created successfully")).
  vm_compute. reflexivity.
Defined.

Lemma save_frame db now orig doc u db' :
  save db now orig doc = Resolved (u, db') ->
  List.length db' = List.length db
  /\ forall c, _id c <> _id doc -> In c db' <-> In c db.
Proof.
  unfold save. destruct (validate doc); [| discriminate]. cbn [negb].
  destruct (isModified orig doc); cbn [negb];
    [| intros [= _ <-]; split; [reflexivity | tauto]].
  destruct (_ && _); [discriminate |]. intros [= _ <-].
  split; [apply replace_length |].
  intros c Hc. now apply replace_other.
Qed.

Lemma updates_frame db now id body st :
  let db1 := snd (updateCustomer db now (ObjectId id) body) in
  let db2 := snd (updateCustomerStatus db now (ObjectId id) st) in
  (List.length db1 = List.length db
   /\ forall c, _id c <> id -> In c db1 <-> In c db)
  /\ (List.length db2 = List.length db
      /\ forall c, _id c <> id -> In c db2 <-> In c db).
Proof.
  cbv zeta. split.
  - unfold updateCustomer. cbn [findById findByIdAndDelete].
    destruct (documentWithId db id) as [customer |] eqn:Hf;
      [| split; [reflexivity | tauto]].
    apply findById_id in Hf. destruct Hf as [_ Hid].
    destruct (if emailChanges customer (Body.email body) then _ else false);
      [split; [reflexivity | tauto] |].
    rewrite applyBody_fields.
    destruct (save db now customer _) as [[u db'] | err] eqn:E.
    + apply save_frame in E. cbn [snd]. cbn [_id Spec.updatedFields] in E.
      now rewrite Hid in E.
    + destruct err; split; try reflexivity; tauto.
  - unfold updateCustomerStatus. cbn [findById findByIdAndDelete].
    destruct (_ || _); [split; [reflexivity | tauto] |].
    destruct (documentWithId db id) as [customer |] eqn:Hf;
      [| split; [reflexivity | tauto]].
    apply findById_id in Hf. destruct Hf as [_ Hid].
    destruct (save db now customer _) as [[u db'] | err] eqn:E;
      [| split; [reflexivity | tauto]].
    apply save_frame in E. cbn [snd]. cbn [_id assignStatus] in E.
    now rewrite Hid in E.
Qed.

(** X9. [updateCustomer] and [updateCustomerStatus] never change the
  number of documents nor any document with another identity. *)
Theorem updates_touch_one_document db now id body st :
  let db1 := snd (updateCustomer db now id body) in
  let db2 := snd (updateCustomerStatus db now id st) in
  (List.length db1 = List.length db
   /\ forall c, ObjectId (_id c) <> id -> In c db1 <-> In c db)
  /\ (List.length db2 = List.length db
      /\ forall c, ObjectId (_id c) <> id -> In c db2 <-> In c db).
Proof.
  cbv zeta. destruct id as [n |].
  - destruct (updates_frame db now n body st) as [[L1 F1] [L2 F2]].
    split; (split; [assumption |]); intros c Hc;
      [apply F1 | apply F2]; congruence.
  - unfold updateCustomer, updateCustomerStatus. cbn [findById].
    destruct (_ || _); cbn [snd]; split; (split; [reflexivity | tauto]).
Qed.

(** X10. On an ObjectId that no customer has, [updateCustomer] and
  [updateCustomerStatus] (with a valid status) answer 404; on an
  identity that is not an ObjectId they answer 500; the collection is
  unchanged in each case. *)
Theorem update_unknown_identity db now id body st :
  (forall c, In c db -> _id c <> id) ->
  updateCustomer db now (ObjectId id) body = (failure 404 "Customer not found", db)
  /\ updateCustomer db now NotObjectId body
     = (failure 500 "Error updating customer", db)
  /\ (Spec.validStatus st = true ->
      updateCustomerStatus db now (ObjectId id) st
      = (failure 404 "Customer not found", db)
      /\ updateCustomerStatus db now NotObjectId st
         = (failure 500 "Error updating customer status", db)).
Proof.
  intros H. apply findById_none in H. split; [| split].
  - unfold updateCustomer. cbn [findById]. now rewrite H.
  - reflexivity.
  - intros Hs. split.
    + unfold updateCustomerStatus. cbn [findById].
      now rewrite status_guard, Hs, H.
    + unfold updateCustomerStatus. cbn [findById].
      now rewrite status_guard, Hs.
Qed.

Lemma update_unknown_identity_witness :
  updateCustomer [Spec.jane] 1710504000000 (ObjectId 9) Body.empty
  = (failure 404 "Customer not found", [Spec.jane])
  /\ updateCustomer [Spec.jane] 1710504000000 NotObjectId Body.empty
     = (failure 500 "Error updating customer", [Spec.jane])
  /\ updateCustomerStatus [Spec.jane] 1710504000000 (ObjectId 9) (Some "inactive")
     = (failure 404 "Customer not found", [Spec.jane])
  /\ updateCustomerStatus [Spec.jane] 1710504000000 NotObjectId (Some "inactive")
     = (failure 500 "Error updating customer status", [Spec.jane]).
Proof.
  destruct (update_unknown_identity [Spec.jane] 1710504000000 9 Body.empty
              (Some "inactive")) as (A & B & C).
  - intros c [<- | []]. discriminate.
  - destruct (C eq_refl) as [C1 C2].
    split; [exact A |]. split; [exact B |]. split; [exact C1 | exact C2].
Defined.

Lemma updateCustomerStatus_stored db now id st :
  snd (updateCustomerStatus db now (ObjectId id) st)
  = if Spec.validStatus st then
      match documentWithId db id with
      | None => db
      | Some customer =>
          let doc := Spec.withStatus customer (orString st EmptyString) in
          if validate doc && isModified customer doc
          then replace db (withUpdatedAt doc now) else db
      end
    else db.
Proof.
  unfold updateCustomerStatus. cbn [findById findByIdAndDelete]. rewrite status_guard.
  destruct (Spec.validStatus st); cbn [negb]; [| reflexivity].
  destruct (documentWithId db id) as [customer |]; [| reflexivity].
  rewrite assignStatus_withStatus. unfold save. cbv zeta.
  destruct (validate _); cbn [negb andb]; [| reflexivity].
  destruct (isModified customer _); cbn [negb]; [| reflexivity].
  cbn [email Spec.withStatus]. rewrite String.eqb_refl. reflexivity.
Qed.

Lemma updateCustomerStatus_twice db now now' id st :
  let db1 := snd (updateCustomerStatus db now (ObjectId id) st) in
  snd (updateCustomerStatus db1 now' (ObjectId id) st) = db1.
Proof.
  cbv zeta. rewrite (updateCustomerStatus_stored _ now').
  rewrite (updateCustomerStatus_stored db now).
  destruct (Spec.validStatus st); [| reflexivity].
  destruct (documentWithId db id) as [customer |] eqn:Hf; [| now rewrite Hf].
  cbv zeta.
  set (s := orString st EmptyString).
  destruct (validate (Spec.withStatus customer s)) eqn:V; cbn [andb];
    [| now rewrite Hf, V].
  destruct (isModified customer (Spec.withStatus customer s)) eqn:M;
    [| now rewrite Hf, V, M].
  set (doc := withUpdatedAt (Spec.withStatus customer s) now).
  rewrite (findById_replace db id customer doc Hf);
    [| unfold doc; cbn [_id withUpdatedAt Spec.withStatus];
       apply findById_id in Hf; destruct Hf as [_ Hf]; exact Hf].
  assert (Ed : Spec.withStatus doc s = doc) by reflexivity.
  rewrite Ed, isModified_refl. now rewrite andb_false_r.
Qed.

(** X11. Repeating a status patch, at whatever later time, leaves the
  collection as the first patch left it. *)
Theorem updateCustomerStatus_idempotent db now now' id st :
  let db1 := snd (updateCustomerStatus db now id st) in
  snd (updateCustomerStatus db1 now' id st) = db1.
Proof.
  cbv zeta. destruct id as [n |]; [apply updateCustomerStatus_twice |].
  unfold updateCustomerStatus. cbn [findById].
  destruct (_ || _); reflexivity.
Qed.

End MoreWriteFacts.

